(** * The WASI cross-build pipeline of agentica-server

    A shallow embedding of the shell scripts under [src/sandbox/build]
    ([build_cpython.sh], [build_msgspec.sh], [build_xxhash.sh]) and of the
    properties their specification states about them.

    The scripts are straight-line [bash] programs run under
    [set -euo pipefail].  They are modelled as programs of a small
    state-and-exit monad over
    - a file system (a finite map from absolute path names to nodes),
    - the trace of external programs that were started, in order,
    - an optional crash budget (the number of commands that still complete
      before the machine stops).
    External programs whose results the scripts cannot know (the network,
    the compiler, the linker, the archiver, the hash function) are fields of
    a record of oracles the whole model is parameterised by. *)

From stdpp Require Import base option list strings gmap fin_maps.
From Stdlib Require Import Ascii.
From Stdlib Require String.

Local Open Scope string_scope.
Local Open Scope list_scope.

(** ** Strings and path names *)

Module Path.

(** ["$dir/$name"] *)
Definition join (dir name : string) : string := dir +:+ "/" +:+ name.

(** [p] is [dir] itself or lies below it. *)
Definition under (dir p : string) : bool :=
  String.eqb p dir || String.prefix (dir +:+ "/") p.

(** The directories [mkdir -p p] has to walk through before [p]: every
    proper prefix of [p] that ends right before a slash, the root
    excepted. *)
Fixpoint dir_prefixes (pre rest : string) : list string :=
  match rest with
  | EmptyString => []
  | String c rest' =>
      let tail := dir_prefixes (pre +:+ String c EmptyString) rest' in
      if Ascii.eqb c "/"
      then (if String.eqb pre "" then tail else pre :: tail)
      else tail
  end.

Definition ancestors (p : string) : list string := dir_prefixes "" p.

(** [s] ends with [suf] (the shell pattern [*suf]). *)
Definition ends_with (suf s : string) : bool :=
  String.prefix (String.rev suf) (String.rev s).

(** The text after the leading [n] characters. *)
Definition drop (n : nat) (s : string) : string :=
  String.substring n (String.length s - n) s.

Fixpoint has_slash (s : string) : bool :=
  match s with
  | EmptyString => false
  | String c s' => Ascii.eqb c "/" || has_slash s'
  end.

End Path.

Infix "</>" := Path.join (at level 50, left associativity).

(** ** File system *)

Inductive node :=
| File (content : string) (executable : bool)
| Dir.

Global Instance node_eq_dec : EqDecision node.
Proof. solve_decision. Defined.

Abbreviation filesys := (gmap string node).

Definition is_file (f : filesys) (p : string) : bool :=
  match f !! p with Some (File _ _) => true | _ => false end.

Definition is_dir (f : filesys) (p : string) : bool :=
  match f !! p with Some Dir => true | _ => false end.

(** [[ -x p ]]: a file with the executable bit, or a (searchable)
    directory. *)
Definition is_executable (f : filesys) (p : string) : bool :=
  match f !! p with
  | Some (File _ x) => x
  | Some Dir => true
  | None => false
  end.

Definition read_file (f : filesys) (p : string) : option string :=
  match f !! p with Some (File c _) => Some c | _ => None end.

(** Write several nodes at once; later entries of the list lose against
    earlier ones, everything listed wins against what was there. *)
Definition write_all (ws : list (string * node)) (f : filesys) : filesys :=
  list_to_map ws ∪ f.

(** [rm -rf dir] *)
Definition remove_tree (dir : string) (f : filesys) : filesys :=
  filter (λ kv, Path.under dir kv.1 = false) f.

(** The nodes at and below [src], renamed to sit at and below [dst]. *)
Definition subtree_as (src dst : string) (f : filesys) : list (string * node) :=
  omap (λ kv, if Path.under src kv.1
              then Some (dst +:+ Path.drop (String.length src) kv.1, kv.2)
              else None)
       (map_to_list f).

(** The members of directory [dir] whose name matches [*suf]: what the
    shell expands ["$dir/"*suf] to (names with a leading dot are not
    matched by [*]). *)
Definition glob_suffix (dir suf : string) (f : filesys) : list string :=
  omap (λ kv,
          let p := kv.1 in
          if String.prefix (dir +:+ "/") p then
            let name := Path.drop (String.length dir + 1) p in
            if negb (Path.has_slash name) && negb (String.prefix "." name)
               && negb (String.eqb name "") && Path.ends_with suf name
            then Some name else None
          else None)
       (map_to_list f).

(** One directory of [mkdir -p]: fine when it is there, created when it is
    not, an error when a file is in the way.  The directories made before
    the error stay. *)
Fixpoint mkdirs (ps : list string) (f : filesys) : bool * filesys :=
  match ps with
  | [] => (true, f)
  | p :: ps' =>
      match f !! p with
      | Some (File _ _) => (false, f)
      | Some Dir => mkdirs ps' f
      | None => mkdirs ps' (<[p := Dir]> f)
      end
  end.

Definition mkdir_p1 (p : string) (f : filesys) : bool * filesys :=
  mkdirs (Path.ancestors p ++ [p]) f.

(** ** Platform detection ([build_cpython.sh], lines 15-30) *)

Module Platform.

Inductive resolved :=
| Tag (platform : string)
| UnsupportedOS (message : string).

(** [OSTYPE] is bash's variable, [uname_m] the output of [uname -m]. *)
Definition detect (OSTYPE uname_m : string) : resolved :=
  let ARCH := uname_m in
  if String.prefix "linux-gnu" OSTYPE then
    let OS := "linux" in
    let ARCH := if String.eqb ARCH "aarch64" then "arm64" else ARCH in
    Tag (ARCH +:+ "-" +:+ OS)
  else if String.prefix "darwin" OSTYPE then
    let OS := "macos" in
    Tag (ARCH +:+ "-" +:+ OS)
  else
    UnsupportedOS ("Unsupported OS: " +:+ OSTYPE).

(** The platform tags the toolchain is published for. *)
Definition known_tags : list string :=
  ["x86_64-linux"; "arm64-linux"; "x86_64-macos"; "arm64-macos"].

End Platform.

(** ** Checksum files

    The pipeline's checksum files are plain text, one line for a file:
    the hexadecimal SHA-256 digest, two spaces, the file name.  They are
    read by an external program, [shasum -a 256 -c FILE]. *)

Module Sums.

Definition is_hex (c : ascii) : bool :=
  let n := nat_of_ascii c in
  (Nat.leb 48 n && Nat.leb n 57) || (Nat.leb 65 n && Nat.leb n 70)
  || (Nat.leb 97 n && Nat.leb n 102).

Fixpoint all_hex (s : string) : bool :=
  match s with
  | EmptyString => true
  | String c s' => is_hex c && all_hex s'
  end.

Definition lower (c : ascii) : ascii :=
  let n := nat_of_ascii c in
  if Nat.leb 65 n && Nat.leb n 90 then ascii_of_nat (n + 32) else c.

Fixpoint lc (s : string) : string :=
  match s with
  | EmptyString => EmptyString
  | String c s' => String (lower c) (lc s')
  end.

(** Cut a text at its newlines; [cur] is the current line, reversed. *)
Fixpoint lines_go (cur : string) (s : string) : list string :=
  match s with
  | EmptyString => if String.eqb cur "" then [] else [String.rev cur]
  | String c s' =>
      if Ascii.eqb c "010" then String.rev cur :: lines_go "" s'
      else lines_go (String c cur) s'
  end.

Definition lines (s : string) : list string := lines_go "" s.

(** The checksum file [text] has the line that gives file [name] the
    SHA-256 digest [sum]. *)
Definition listed (text sum name : string) : Prop :=
  String.length sum = 64
  ∧ all_hex sum = true
  ∧ (sum +:+ "  " +:+ name) ∈ lines text.

(** A name the checksum tool opens as a file of the directory it runs
    in: not an absolute path, and not [-], which it reads as its standard
    input. *)
Definition relative (name : string) : bool :=
  negb (String.eqb name "") && negb (String.eqb name "-")
  && negb (String.prefix "/" name).



End Sums.

(** ** The outside world *)

(** What [curl -fL -o] leaves behind. *)
Inductive fetched :=
| Body (bytes : string)
| Broken (left_over : option string).

Record tools := Tools {
  (** hexadecimal (lower case) digest of the given length *)
  digest : nat → string → string;
  (** exit status of [shasum -a 256 -c sumfile], with [--ignore-missing]
      or without, run in a directory: the flag, the directory, the
      checksum file *)
  shasum : bool → string → string → filesys → nat;
  http_get : string → fetched;
  (** members of an archive, by relative path name *)
  untar : string → option (list (string * node));
  mktar : list (string * node) → string;
  (** [clang --print-resource-dir], from the compiler binary *)
  resource_dir : string → option string;
  (** object code, from the arguments and the files they name *)
  compile : list string → filesys → option string;
  link : list string → filesys → option string;
  (** [uv sync] in a directory *)
  uv_sync : string → filesys → option filesys;
  (** [uv run python -c 'import sys; print(sys.executable)'] *)
  uv_python : string → filesys → option string;
  (** [./config.guess] in a directory; empty when it fails *)
  config_guess : string → filesys → string;
  (** [Tools/wasm/wasi-env ./configure]: environment, arguments, directory *)
  configure : list (string * string) → list string → string → filesys
              → option filesys
}.

(** ** Traces *)

Inductive event :=
| Echo (line : string)
| Curl (url out : string)
| ShasumCheck (sumfile : string) (ignore_missing : bool)
| TarExtract (archive dir : string)
| TarCreate (out dir member : string)
| Clang (clang : string) (argv : list string)
| WasmLd (ld : string) (argv : list string)
| UvSync (cwd : string)
| UvPython (cwd : string)
| Configure (env : list (string * string)) (argv : list string).

Global Instance event_eq_dec : EqDecision event.
Proof. solve_decision. Defined.

Definition is_network (e : event) : bool :=
  match e with Curl _ _ => true | _ => false end.

(** A compile step: the compiler run on a source file ([-c]), or the
    runtime's [configure], which drives the compiler. *)
Definition is_compile (e : event) : bool :=
  match e with
  | Clang _ argv => bool_decide ("-c" ∈ argv)
  | Configure _ _ => true
  | _ => false
  end.

Definition is_link (e : event) : bool :=
  match e with WasmLd _ _ => true | _ => false end.

(** Any start of the compiler, its queries included. *)
Definition is_compiler_run (e : event) : bool :=
  match e with Clang _ _ | Configure _ _ => true | _ => false end.

Definition is_extract (e : event) : bool :=
  match e with TarExtract _ _ => true | _ => false end.

Definition is_verify (e : event) : bool :=
  match e with ShasumCheck _ _ => true | _ => false end.

(** ** The shell monad *)

Record state := State {
  fs : filesys;
  trace : list event;
  (** [Some n]: the machine stops when the [n+1]st command from here is
      about to start; [None]: it keeps running. *)
  crash_in : option nat
}.

Inductive outcome (A : Type) :=
| Ret (a : A)
| Err (status : nat)   (** a command failed and [set -e] ends the script *)
| Halt (status : nat)  (** [exit status] *)
| Crash.
Global Arguments Ret {A} a.
Global Arguments Err {A} status.
Global Arguments Halt {A} status.
Global Arguments Crash {A}.

Definition sh (A : Type) : Type := state → outcome A * state.

Definition sh_ret {A} (a : A) : sh A := λ s, (Ret a, s).

Definition sh_bind {A B} (c : sh A) (k : A → sh B) : sh B :=
  λ s, match c s with
       | (Ret a, s') => k a s'
       | (Err n, s') => (Err n, s')
       | (Halt n, s') => (Halt n, s')
       | (Crash, s') => (Crash, s')
       end.

Global Instance sh_mret : MRet sh := @sh_ret.
Global Instance sh_mbind : MBind sh := λ A B k c, sh_bind c k.

(** [cmd || true] *)
Definition or_true (c : sh unit) : sh unit :=
  λ s, match c s with
       | (Err _, s') => (Ret (), s')
       | r => r
       end.

Definition exit {A} (status : nat) : sh A := λ s, (Halt status, s).

(** A shell builtin test: no process is started. *)
Definition test (b : filesys → bool) : sh bool := λ s, (Ret (b (fs s)), s).

(** One command: it does not start when the machine has stopped;
    otherwise it acts on the file system and is recorded. *)
Definition command {A} (ev : option event)
    (body : filesys → outcome A * filesys) : sh A :=
  λ s, match crash_in s with
       | Some 0 => (Crash, s)
       | c => let '(o, f') := body (fs s) in
              (o, {| fs := f'; trace := trace s ++ option_list ev;
                     crash_in := Nat.pred <$> c |})
       end.

(** The exit status of a whole script, when it ran to its end. *)
Definition exit_status {A} (o : outcome A) : option nat :=
  match o with
  | Ret _ => Some 0
  | Err n | Halt n => Some n
  | Crash => None
  end.

(** The script ended and reported success: it ran through, or it left
    with [exit 0].  A failed command is a failure whatever its status. *)
Definition succeeded {A} (o : outcome A) : bool :=
  match o with
  | Ret _ | Halt 0 => true
  | _ => false
  end.

Definition fail {A} (status : nat) : sh A := λ s, (Err status, s).

(** What the exit status of a program means to a script under [set -e]. *)
Definition status_outcome (status : nat) : outcome unit :=
  match status with
  | 0 => Ret ()
  | S n => Err (S n)
  end.

Module PathOps.

(** The part of [p] before its last slash. *)
Fixpoint after_slash_rev (s : string) : string :=
  match s with
  | EmptyString => EmptyString
  | String c s' => if Ascii.eqb c "/" then s' else after_slash_rev s'
  end.

Definition dirname (p : string) : string :=
  String.rev (after_slash_rev (String.rev p)).

Fixpoint until_slash (s : string) : string :=
  match s with
  | EmptyString => EmptyString
  | String c s' => if Ascii.eqb c "/" then EmptyString
                   else String c (until_slash s')
  end.

Definition basename (p : string) : string :=
  String.rev (until_slash (String.rev p)).

End PathOps.

(** A file can be created at [p]: its directory is there and [p] is not
    itself a directory. *)
Definition creatable (f : filesys) (p : string) : bool :=
  is_dir f (PathOps.dirname p) && negb (is_dir f p).

(** ** The commands the scripts use *)

Section Commands.

Variable T : tools.

Definition echo (line : string) : sh unit :=
  command (Some (Echo line)) (λ f, (Ret (), f)).

Fixpoint mkdir_all (ps : list string) (f : filesys) : bool * filesys :=
  match ps with
  | [] => (true, f)
  | p :: ps' =>
      let '(ok, f1) := mkdir_p1 p f in
      let '(ok', f2) := mkdir_all ps' f1 in
      (ok && ok', f2)
  end.

(** [mkdir -p p1 p2 ...] *)
Definition mkdir_p (ps : list string) : sh unit :=
  command None (λ f, let '(ok, f') := mkdir_all ps f in
                     (if ok then Ret () else Err 1, f')).

(** [rm -rf p] *)
Definition rm_rf (p : string) : sh unit :=
  command None (λ f, (Ret (), remove_tree p f)).

(** [rm -f p]: no complaint when [p] is missing, but a directory is
    refused. *)
Definition rm_f (p : string) : sh unit :=
  command None (λ f, match f !! p with
                     | Some Dir => (Err 1, f)
                     | _ => (Ret (), delete p f)
                     end).

(** [curl -fL -o out url] *)
Definition curl_fL_o (out url : string) : sh unit :=
  command (Some (Curl url out))
    (λ f, if creatable f out then
            match http_get T url with
            | Body b => (Ret (), <[out := File b false]> f)
            | Broken None => (Err 22, f)
            | Broken (Some part) => (Err 18, <[out := File part false]> f)
            end
          else (Err 23, f)).

(** [(cd "$cwd" && shasum -a 256 -c "$sumfile" [--ignore-missing])] *)
Definition shasum_c (cwd sumfile : string) (ignore_missing : bool)
  : sh unit :=
  there ← test (λ f, is_dir f cwd);
  if there : bool then
    command (Some (ShasumCheck sumfile ignore_missing))
      (λ f, (status_outcome (shasum T ignore_missing cwd sumfile f), f))
  else fail 1.

(** [tar -C "$dir" -xf "$archive"] *)
Definition tar_xf (dir archive : string) : sh unit :=
  command (Some (TarExtract archive dir))
    (λ f, if is_dir f dir then
            match read_file f archive ≫= untar T with
            | Some members =>
                (Ret (),
                 write_all (prod_map (Path.join dir) id <$> members) f)
            | None => (Err 2, f)
            end
          else (Err 2, f)).

(** [tar -C "$dir" -czf "$out" member].  The archiver streams: it first
    opens (creates or empties) [out], then walks [member] and writes the
    archive through. *)
Definition tar_czf (dir out member : string) : sh unit :=
  command (Some (TarCreate out dir member))
    (λ f, if creatable f out
          then (Ret (), <[out := File "" false]> f)
          else (Err 2, f)) ;;
  command None
    (λ f, if is_dir f dir && bool_decide (is_Some (f !! (dir </> member)))
          then (Ret (),
                <[out := File (mktar T (subtree_as (dir </> member) member f))
                              false]> f)
          else (Err 2, f)).

(** [cp -R "$dir/"*suf "$dst/"] *)
Definition cp_R_glob (dir suf dst : string) : sh unit :=
  command None
    (λ f, match glob_suffix dir suf f with
          | [] => (Err 1, f)
          | names =>
              if is_dir f dst then
                (Ret (),
                 write_all
                   (mjoin ((λ n, subtree_as (dir </> n) (dst </> n) f)
                           <$> names)) f)
              else (Err 1, f)
          end).

(** [cp -R "$src" "$dst/"] *)
Definition cp_R (src dst : string) : sh unit :=
  command None
    (λ f, if bool_decide (is_Some (f !! src)) && is_dir f dst then
            (Ret (),
             write_all (subtree_as src (dst </> PathOps.basename src) f) f)
          else (Err 1, f)).

(** [cp "$src" "$dst/"] *)
Definition cp (src dst : string) : sh unit :=
  command None
    (λ f, match f !! src with
          | Some (File c x) =>
              if is_dir f dst
              then (Ret (), <[dst </> PathOps.basename src := File c x]> f)
              else (Err 1, f)
          | _ => (Err 1, f)
          end).

(** [mv "$src" "$dst"] *)
Definition mv (src dst : string) : sh unit :=
  command None
    (λ f, if bool_decide (is_Some (f !! src)) then
            let target := if is_dir f dst
                          then dst </> PathOps.basename src else dst in
            if bool_decide (is_Some (f !! target)) then (Err 1, f)
            else (Ret (),
                  write_all (subtree_as src target f) (remove_tree src f))
          else (Err 1, f)).

(** ["$clang" --print-resource-dir] *)
Definition clang_print_resource_dir (clang : string) : sh string :=
  command (Some (Clang clang ["--print-resource-dir"]))
    (λ f, match f !! clang with
          | Some (File bin true) =>
              match resource_dir T bin with
              | Some d => (Ret d, f)
              | None => (Err 1, f)
              end
          | Some _ => (Err 126, f)
          | None => (Err 127, f)
          end).

(** ["$clang" argv], writing the object file [out] *)
Definition clang_c (clang : string) (argv : list string) (out : string)
  : sh unit :=
  command (Some (Clang clang argv))
    (λ f, match f !! clang with
          | Some (File _ true) =>
              match compile T argv f with
              | Some obj => (Ret (), <[out := File obj false]> f)
              | None => (Err 1, f)
              end
          | Some _ => (Err 126, f)
          | None => (Err 127, f)
          end).

(** ["$ld" argv], writing the module [out] *)
Definition wasm_ld (ld : string) (argv : list string) (out : string)
  : sh unit :=
  command (Some (WasmLd ld argv))
    (λ f, match f !! ld with
          | Some (File _ true) =>
              match link T argv f with
              | Some so => (Ret (), <[out := File so false]> f)
              | None => (Err 1, f)
              end
          | Some _ => (Err 126, f)
          | None => (Err 127, f)
          end).

(** [pushd "$dir"] *)
Definition pushd (dir : string) : sh unit :=
  there ← test (λ f, is_dir f dir);
  if there : bool then mret () else fail 1.

(** [{ lines; } > "$out"] *)
Definition write_lines (out : string) (ls : list string) : sh unit :=
  command None
    (λ f, if creatable f out
          then (Ret (),
                <[out := File (String.concat ""
                                 ((λ l, l +:+ String "010" "") <$> ls))
                              false]> f)
          else (Err 1, f)).

End Commands.

(** The double-quote character. *)
Definition dquote : string := String (ascii_of_nat 34) EmptyString.

(** [${VAR:-default}] *)
Definition param_default (v : option string) (d : string) : string :=
  match v with
  | Some s => if String.eqb s "" then d else s
  | None => d
  end.

(** ** The scripts *)

Section Scripts.

Variable T : tools.
(** The directory the scripts live in. *)
Variable ROOT : string.

Definition TOOL_DIR : string := ROOT </> "_tooling".
Definition WASI_VER : string := "27.0".
Definition WASI_DIR : string := TOOL_DIR </> "wasi-sdk-" +:+ WASI_VER.
Definition WASI_SDK : string := WASI_DIR.
Definition PY_HEADERS_312_DIR : string := TOOL_DIR </> "py-headers-3.12".
(** [CPYTHON_TAG], the same assignment in both extension scripts *)
Definition CPYTHON_TAG : string := "cpython-312".

(** *** Two idioms every fetching stage has

    Each stage that fetches an archive does it with the same two
    pieces of text: [build_xxhash.sh] lines 64-72, the same lines of
    [build_msgspec.sh], and [build_cpython.sh] lines 34-43 and 77-85. *)

(** [if [ ! -f "$file" ]; then echo ...; curl -fL -o "$file" "$url";
    else echo ...; fi] *)
Definition fetch_unless_cached (file url downloading reusing : string)
  : sh unit :=
  cached ← test (λ f, is_file f file);
  if negb cached then
    echo downloading ;;
    curl_fL_o T file url
  else
    echo reusing.

(** [echo ...; (cd "$TOOL_DIR" && shasum -a 256 -c "$sums" [--ignore-missing])] *)
Definition verify_checksums (line sums : string) (ignore_missing : bool)
  : sh unit :=
  echo line ;;
  shasum_c T TOOL_DIR sums ignore_missing.

(** *** What [build_msgspec.sh] and [build_xxhash.sh] share

    The two scripts are the same text up to the unpacking of the source
    archive, with the extension's name substituted. *)
Section Extension.

(** ["xxhash"] or ["msgspec"] *)
Variable name : string.
(** the pinned version, [XXHASH_VER] or [MSGSPEC_VER] *)
Variable VER : string.
Variable ARCHIVE_URL : string.
Variable ARCHIVE_FILE : string.

Definition OUT_TAR : string := TOOL_DIR </> name +:+ "-wasi.tar.gz".
Definition BUILD_DIR : string := TOOL_DIR </> "build-" +:+ name.
Definition PKG_DIR : string := BUILD_DIR </> "pkg".
Definition OBJ_DIR : string := BUILD_DIR </> "obj".
Definition SRC_TOP_DIR : string := BUILD_DIR </> name +:+ "-" +:+ VER.
Definition SUMFILE : string := ROOT </> name +:+ ".sha256sum".

Definition say (msg : string) : sh unit :=
  echo ("[" +:+ name +:+ "] " +:+ msg).

(** The prerequisite checks and the fresh build directory, up to
    [mkdir -p "$BUILD_DIR" "$PKG_DIR"].  Returns [PY_HEADERS_DIR] and
    [RT_DIR]. *)
Definition check_prerequisites : sh (string * string) :=
  sdk ← test (λ f, is_executable f (WASI_SDK </> "bin/clang"));
  if negb sdk then
    say "Error: WASI SDK not found; run build_cpython.sh first" ;;
    exit 1
  else
  hdr ← test (λ f, is_dir f PY_HEADERS_312_DIR);
  if negb hdr then
    say "Error: Python 3.12 headers not found; run build_cpython.sh first" ;;
    exit 1
  else
  let PY_HEADERS_DIR := PY_HEADERS_312_DIR in
  CLANG_RES ← clang_print_resource_dir T (WASI_SDK </> "bin/clang");
  let RT_DIR := CLANG_RES </> "lib/wasm32-unknown-wasi" in
  rt ← test (λ f, is_dir f RT_DIR);
  if negb rt then
    say ("Error: compiler runtime dir not found: " +:+ RT_DIR) ;;
    exit 1
  else
  or_true (rm_rf BUILD_DIR) ;;
  or_true (mkdir_p [BUILD_DIR; PKG_DIR]) ;;
  mret (PY_HEADERS_DIR, RT_DIR).

(** From [TOOL_DIR=] on: the tool cache, the cache check, and then the
    prerequisites. *)
Definition prepare : sh (string * string) :=
  or_true (mkdir_p [TOOL_DIR]) ;;
  hit ← test (λ f, is_file f OUT_TAR);
  if hit : bool then
    say ("Cache hit: " +:+ OUT_TAR +:+ " already exists; skipping build") ;;
    exit 0
  else check_prerequisites.

(** The download, skipped when the archive is in the tool cache. *)
Definition fetch : sh unit :=
  fetch_unless_cached ARCHIVE_FILE ARCHIVE_URL
    ("[" +:+ name +:+ "] " +:+ "Downloading " +:+ ARCHIVE_URL)
    ("[" +:+ name +:+ "] " +:+ "Using cached " +:+ ARCHIVE_FILE).

Definition verify : sh unit :=
  verify_checksums ("[" +:+ name +:+ "] " +:+ "Verifying checksum")
    SUMFILE false.

Definition unpack : sh unit :=
  say ("Unpacking " +:+ ARCHIVE_FILE) ;;
  tar_xf T BUILD_DIR ARCHIVE_FILE ;;
  top ← test (λ f, is_dir f SRC_TOP_DIR);
  if negb top then
    say ("Error: Unexpected sdist layout; cannot find " +:+ SRC_TOP_DIR) ;;
    exit 1
  else mret ().

End Extension.

(** *** [build_xxhash.sh] *)

Definition xxhash_EXT_BASENAME : string := "_xxhash".

(** [EXT_NAME="${EXT_BASENAME}.${CPYTHON_TAG}-wasm32-wasi.so"] *)
Definition xxhash_EXT_NAME : string :=
  xxhash_EXT_BASENAME +:+ "." +:+ CPYTHON_TAG +:+ "-wasm32-wasi.so".

Definition xxhash_link_argv (RT_DIR PKG OBJ : string) : list string :=
  [ "--no-entry"; "--shared"; "--export-dynamic"; "--allow-undefined";
    "--export=PyInit__xxhash";
    "-L" +:+ RT_DIR;
    "-o"; PKG </> "xxhash" </> xxhash_EXT_NAME;
    OBJ </> xxhash_EXT_BASENAME +:+ ".o";
    OBJ </> "xxhash_core.o";
    RT_DIR </> "libclang_rt.builtins.a" ].

Section Xxhash.

(** the environment's [XXHASH_VER], when set *)
Variable XXHASH_VER_env : option string.

Definition XXHASH_VER : string := param_default XXHASH_VER_env "3.4.1".

Definition xxhash_ARCHIVE_URL : string :=
  "https://files.pythonhosted.org/packages/source/x/xxhash/xxhash-"
  +:+ XXHASH_VER +:+ ".tar.gz".
Definition xxhash_ARCHIVE_NAME : string :=
  "xxhash-" +:+ XXHASH_VER +:+ "-pypi.tar.gz".
Definition xxhash_ARCHIVE_FILE : string := TOOL_DIR </> xxhash_ARCHIVE_NAME.

Local Abbreviation SRC := (SRC_TOP_DIR "xxhash" XXHASH_VER).
Local Abbreviation PKG := (PKG_DIR "xxhash").
Local Abbreviation OBJ := (OBJ_DIR "xxhash").
Local Abbreviation say := (say "xxhash").

(** The pure-Python files of the package. *)
Definition xxhash_copy_sources : sh unit :=
  or_true (mkdir_p [PKG </> "xxhash"]) ;;
  cp_R_glob (SRC </> "xxhash") ".py" (PKG </> "xxhash") ;;
  or_true (cp_R_glob (SRC </> "xxhash") ".pyi" (PKG </> "xxhash")) ;;
  typed ← test (λ f, is_file f (SRC </> "xxhash/py.typed"));
  if typed : bool then cp (SRC </> "xxhash/py.typed") (PKG </> "xxhash")
  else mret ().

(** The wrapper source, under either archive layout. *)
Definition xxhash_find_wrapper : sh string :=
  new ← test (λ f, is_file f (SRC </> "src/_xxhash.c"));
  if new : bool then mret (SRC </> "src/_xxhash.c") else
  old ← test (λ f, is_file f (SRC </> "xxhash/_xxhash.c"));
  if old : bool then mret (SRC </> "xxhash/_xxhash.c") else
  say "Error: Could not find Python wrapper source (_xxhash.c) in src/ or xxhash/" ;;
  exit 1.

Definition xxhash_INC_DEPS : list string :=
  [ "-I" +:+ SRC +:+ "/src"; "-I" +:+ SRC +:+ "/xxhash";
    "-I" +:+ SRC +:+ "/deps/xxhash" ].

Definition xxhash_wrapper_argv (PY_HEADERS_DIR WRAP_C : string)
  : list string :=
  [ "--target=wasm32-wasi";
    "--sysroot=" +:+ WASI_SDK +:+ "/share/wasi-sysroot";
    "-I" +:+ PY_HEADERS_DIR;
    "-I" +:+ PY_HEADERS_DIR +:+ "/cpython" ]
  ++ xxhash_INC_DEPS ++
  [ "-O3"; "-DNDEBUG"; "-fPIC"; "-std=c99"; "-fvisibility=default";
    "-DSSIZE_MAX=2147483647";
    "-c"; WRAP_C;
    "-o"; OBJ </> xxhash_EXT_BASENAME +:+ ".o" ].

Definition xxhash_core_argv : list string :=
  [ "--target=wasm32-wasi";
    "--sysroot=" +:+ WASI_SDK +:+ "/share/wasi-sysroot" ]
  ++ xxhash_INC_DEPS ++
  [ "-O3"; "-DNDEBUG"; "-fPIC"; "-std=c99"; "-fvisibility=default";
    "-DSSIZE_MAX=2147483647";
    "-c"; SRC </> "deps/xxhash/xxhash.c";
    "-o"; OBJ </> "xxhash_core.o" ].

Definition xxhash_compile_link (PY_HEADERS_DIR RT_DIR : string)
  : sh unit :=
  say "Compiling C extension for WASI" ;;
  or_true (mkdir_p [OBJ]) ;;
  WRAP_C ← xxhash_find_wrapper;
  clang_c T (WASI_SDK </> "bin/clang")
    (xxhash_wrapper_argv PY_HEADERS_DIR WRAP_C)
    (OBJ </> xxhash_EXT_BASENAME +:+ ".o") ;;
  clang_c T (WASI_SDK </> "bin/clang") xxhash_core_argv
    (OBJ </> "xxhash_core.o") ;;
  wasm_ld T (WASI_SDK </> "bin/wasm-ld")
    (xxhash_link_argv RT_DIR PKG OBJ)
    (PKG </> "xxhash" </> xxhash_EXT_NAME) ;;
  say ("Built: " +:+ PKG </> "xxhash" </> xxhash_EXT_NAME).

Definition xxhash_package : sh unit :=
  say ("Creating tarball: " +:+ OUT_TAR "xxhash") ;;
  rm_f (OUT_TAR "xxhash") ;;
  tar_czf T PKG (OUT_TAR "xxhash") "xxhash" ;;
  say "Done".

Definition build_xxhash : sh unit :=
  '(PY_HEADERS_DIR, RT_DIR) ← prepare "xxhash";
  fetch "xxhash" xxhash_ARCHIVE_URL xxhash_ARCHIVE_FILE ;;
  verify "xxhash" ;;
  unpack "xxhash" XXHASH_VER xxhash_ARCHIVE_FILE ;;
  xxhash_copy_sources ;;
  xxhash_compile_link PY_HEADERS_DIR RT_DIR ;;
  xxhash_package.

End Xxhash.

(** *** [build_msgspec.sh] *)

(** [EXT_NAME="_core.${CPYTHON_TAG}-wasm32-wasi.so"] *)
Definition msgspec_EXT_NAME : string :=
  "_core." +:+ CPYTHON_TAG +:+ "-wasm32-wasi.so".

Definition msgspec_link_argv (RT_DIR PKG OBJ : string) : list string :=
  [ "--no-entry"; "--shared"; "--export-dynamic"; "--allow-undefined";
    "-L" +:+ RT_DIR;
    "-o"; PKG </> "msgspec" </> msgspec_EXT_NAME;
    OBJ </> "_core.o";
    RT_DIR </> "libclang_rt.builtins.a" ].

Section Msgspec.

(** the environment's [MSGSPEC_VER], when set *)
Variable MSGSPEC_VER_env : option string.

Definition MSGSPEC_VER : string := param_default MSGSPEC_VER_env "0.19.0".

Definition msgspec_ARCHIVE_URL : string :=
  "https://github.com/jcrist/msgspec/archive/refs/tags/"
  +:+ MSGSPEC_VER +:+ ".tar.gz".
Definition msgspec_ARCHIVE_NAME : string :=
  "msgspec-" +:+ MSGSPEC_VER +:+ "-github.tar.gz".
Definition msgspec_ARCHIVE_FILE : string :=
  TOOL_DIR </> msgspec_ARCHIVE_NAME.

Local Abbreviation SRC := (SRC_TOP_DIR "msgspec" MSGSPEC_VER).
Local Abbreviation PKG := (PKG_DIR "msgspec").
Local Abbreviation OBJ := (OBJ_DIR "msgspec").
Local Abbreviation say := (say "msgspec").

Definition msgspec_copy_sources : sh unit :=
  or_true (mkdir_p [PKG </> "msgspec"]) ;;
  or_true (cp_R_glob (SRC </> "msgspec") ".py" (PKG </> "msgspec")) ;;
  or_true (cp_R_glob (SRC </> "msgspec") ".pyi" (PKG </> "msgspec")) ;;
  or_true (cp_R (SRC </> "msgspec/py.typed") (PKG </> "msgspec")).

Definition msgspec_core_argv (PY_HEADERS_DIR : string) : list string :=
  [ "--target=wasm32-wasi";
    "--sysroot=" +:+ WASI_SDK +:+ "/share/wasi-sysroot";
    "-I" +:+ PY_HEADERS_DIR;
    "-I" +:+ PY_HEADERS_DIR +:+ "/cpython";
    "-O3"; "-DNDEBUG"; "-fPIC"; "-std=c99";
    "-DSSIZE_MAX=2147483647";
    "-c"; SRC </> "msgspec/_core.c";
    "-o"; OBJ </> "_core.o" ].

Definition msgspec_compile_link (PY_HEADERS_DIR RT_DIR : string)
  : sh unit :=
  say "Compiling C extension (_core) for WASI" ;;
  or_true (mkdir_p [OBJ]) ;;
  clang_c T (WASI_SDK </> "bin/clang") (msgspec_core_argv PY_HEADERS_DIR)
    (OBJ </> "_core.o") ;;
  wasm_ld T (WASI_SDK </> "bin/wasm-ld")
    (msgspec_link_argv RT_DIR PKG OBJ)
    (PKG </> "msgspec" </> msgspec_EXT_NAME) ;;
  say ("Built: " +:+ PKG </> "msgspec" </> msgspec_EXT_NAME).

Definition msgspec_package : sh unit :=
  say ("Creating tarball: " +:+ OUT_TAR "msgspec") ;;
  or_true (rm_f (OUT_TAR "msgspec")) ;;
  tar_czf T PKG (OUT_TAR "msgspec") "msgspec" ;;
  say "Done".

Definition build_msgspec : sh unit :=
  '(PY_HEADERS_DIR, RT_DIR) ← prepare "msgspec";
  fetch "msgspec" msgspec_ARCHIVE_URL msgspec_ARCHIVE_FILE ;;
  verify "msgspec" ;;
  unpack "msgspec" MSGSPEC_VER msgspec_ARCHIVE_FILE ;;
  msgspec_copy_sources ;;
  msgspec_compile_link PY_HEADERS_DIR RT_DIR ;;
  msgspec_package.

End Msgspec.

(** *** [build_cpython.sh] *)

Section CPython.

(** bash's [OSTYPE] and the output of [uname -m] *)
Variables OSTYPE uname_m : string.

Definition TAG : string := "wasi-sdk-27".

Definition WASI_TARBALL_NAME (PLATFORM : string) : string :=
  "wasi-sdk-" +:+ WASI_VER +:+ "-" +:+ PLATFORM +:+ ".tar.gz".
Definition WASI_TARBALL (PLATFORM : string) : string :=
  TOOL_DIR </> WASI_TARBALL_NAME PLATFORM.
Definition WASI_URL (PLATFORM : string) : string :=
  "https://github.com/WebAssembly/wasi-sdk/releases/download/" +:+ TAG
  +:+ "/wasi-sdk-" +:+ WASI_VER +:+ "-" +:+ PLATFORM +:+ ".tar.gz".
Definition wasi_SUMFILE : string := ROOT </> "wasi-sdk.sha256sum".

(** Lines 7-30: the tool cache and the platform. *)
Definition detect_platform : sh string :=
  echo "Step 1: Build CPython for WASI" ;;
  mkdir_p [TOOL_DIR] ;;
  match Platform.detect OSTYPE uname_m with
  | Platform.UnsupportedOS msg => echo msg ;; exit 1
  | Platform.Tag PLATFORM =>
      echo ("Platform Detected: " +:+ PLATFORM) ;;
      mret PLATFORM
  end.

(** Lines 32-40: the toolchain archive. *)
Definition fetch_sdk (PLATFORM : string) : sh unit :=
  fetch_unless_cached (WASI_TARBALL PLATFORM) (WASI_URL PLATFORM)
    ("[wasi-sdk] Downloading " +:+ WASI_URL PLATFORM)
    ("[wasi-sdk] Using existing " +:+ WASI_TARBALL PLATFORM).

(** Lines 42-43. *)
Definition verify_sdk : sh unit :=
  verify_checksums "[wasi-sdk] Verifying checksum" wasi_SUMFILE true.

(** Lines 45-53. *)
Definition extract_sdk (PLATFORM : string) : sh unit :=
  extracted ← test (λ f, is_dir f WASI_DIR);
  if negb extracted then
    echo ("[wasi-sdk] Extracting to " +:+ WASI_DIR) ;;
    or_true (rm_rf WASI_DIR) ;;
    tar_xf T TOOL_DIR (WASI_TARBALL PLATFORM) ;;
    mv (WASI_DIR +:+ "-" +:+ PLATFORM) WASI_DIR
  else
    echo ("[wasi-sdk] Using existing " +:+ WASI_DIR).

(** Lines 55-68: the compiler and its runtime library.  Returns
    [RT_DIR]. *)
Definition locate_compiler : sh string :=
  clang ← test (λ f, is_executable f (WASI_SDK </> "bin/clang"));
  if negb clang then
    echo ("Error: clang not found at " +:+ WASI_SDK </> "bin/clang") ;;
    exit 1
  else
  CLANG_RES ← clang_print_resource_dir T (WASI_SDK </> "bin/clang");
  let RT_DIR := CLANG_RES </> "lib/wasm32-unknown-wasi" in
  let RT_BUILTINS := RT_DIR </> "libclang_rt.builtins.a" in
  rt ← test (λ f, is_file f RT_BUILTINS);
  if negb rt then
    echo ("Error: compiler-rt builtins not found at: " +:+ RT_BUILTINS) ;;
    echo ("Ensure you're using the official wasi-sdk " +:+ WASI_VER
          +:+ " macOS tarball.") ;;
    exit 1
  else mret RT_DIR.

(** Lines 32-68: the toolchain.  Returns [RT_DIR]. *)
Definition provision_toolchain (PLATFORM : string) : sh string :=
  fetch_sdk PLATFORM ;;
  verify_sdk ;;
  extract_sdk PLATFORM ;;
  locate_compiler.

Definition HEADERS_OUT : string := TOOL_DIR </> "py-headers-3.12".
Definition PY_VER : string := "3.12.0".
Definition PY_TARBALL_NAME : string := "Python-" +:+ PY_VER +:+ ".tgz".
Definition PY_TARBALL : string := TOOL_DIR </> PY_TARBALL_NAME.
Definition PY_URL : string :=
  "https://www.python.org/ftp/python/" +:+ PY_VER +:+ "/Python-"
  +:+ PY_VER +:+ ".tgz".
Definition PY_SRC : string := TOOL_DIR </> "Python-" +:+ PY_VER.
Definition PY_PREFIX : string := PY_SRC </> "build-wasi/install".
Definition python_SUMFILE : string := ROOT </> "python.sha256sum".
Definition MERGED_SITE : string := PY_SRC </> "build-wasi/config.site".

Definition configure_env (RT_DIR : string) : list (string * string) :=
  [ ("WASI_SDK_PATH", WASI_SDK);
    ("CONFIG_SITE", MERGED_SITE);
    ("CC", WASI_SDK +:+ "/bin/clang --target=wasm32-wasi --sysroot="
           +:+ WASI_SDK +:+ "/share/wasi-sysroot");
    ("AR", WASI_SDK +:+ "/bin/llvm-ar");
    ("RANLIB", WASI_SDK +:+ "/bin/llvm-ranlib");
    ("READELF", WASI_SDK +:+ "/bin/llvm-readelf");
    ("STRIP", WASI_SDK +:+ "/bin/llvm-strip");
    ("CFLAGS", "--sysroot=" +:+ WASI_SDK +:+ "/share/wasi-sysroot -O2");
    ("LDFLAGS", "-L" +:+ RT_DIR) ].

Definition configure_argv (build BUILD_PY : string) : list string :=
  [ "./Tools/wasm/wasi-env"; "./configure";
    "--host=wasm32-unknown-wasi";
    "--build=" +:+ build;
    "--with-build-python=" +:+ BUILD_PY;
    "--prefix=" +:+ PY_PREFIX ].

(** A step of the outside world that may rewrite the tree. *)
Definition world_step (ev : event) (step : filesys → option filesys)
  : sh unit :=
  command (Some ev) (λ f, match step f with
                          | Some f' => (Ret (), f')
                          | None => (Err 1, f)
                          end).

(** Lines 77-85: the runtime's source archive. *)
Definition fetch_python : sh unit :=
  fetch_unless_cached PY_TARBALL PY_URL
    ("[cpython] Downloading CPython " +:+ PY_VER)
    ("[cpython] Using existing " +:+ PY_TARBALL).

Definition verify_python : sh unit :=
  verify_checksums "[cpython] Verifying checksum" python_SUMFILE false.

(** Lines 87-140: unpack, configure, copy the headers. *)
Definition configure_and_copy_headers (RT_DIR : string) : sh unit :=
  unpacked ← test (λ f, is_dir f PY_SRC);
  (if negb unpacked then
     echo ("[cpython] Extracting to " +:+ PY_SRC) ;;
     or_true (rm_rf PY_SRC) ;;
     tar_xf T TOOL_DIR PY_TARBALL
   else
     echo ("[cpython] Using existing " +:+ PY_SRC)) ;;
  pushd PY_SRC ;;
  world_step (UvSync PY_SRC) (uv_sync T PY_SRC) ;;
  BUILD_PY ← command (Some (UvPython PY_SRC))
               (λ f, match uv_python T PY_SRC f with
                     | Some exe => (Ret exe, f)
                     | None => (Err 1, f)
                     end);
  echo ("[cpython] Using BUILD_PY: " +:+ BUILD_PY) ;;
  mkdir_p [PY_SRC </> "build-wasi"] ;;
  site ← test (λ f, is_file f (PY_SRC </> "Tools/wasm/wasm-config.site"));
  write_lines MERGED_SITE
    ((if site : bool
      then [". " +:+ dquote +:+ PY_SRC </> "Tools/wasm/wasm-config.site"
           +:+ dquote]
      else [])
     ++ ["ac_cv_file__dev_ptmx=no"; "ac_cv_file__dev_ptc=no"]) ;;
  echo ("[cpython] Configuring with CONFIG_SITE: " +:+ MERGED_SITE) ;;
  build ← command None (λ f, (Ret (config_guess T PY_SRC f), f));
  world_step
    (Configure (configure_env RT_DIR) (configure_argv build BUILD_PY))
    (configure T (configure_env RT_DIR) (configure_argv build BUILD_PY)
       PY_SRC) ;;
  echo ("[cpython] Copying headers to " +:+ TOOL_DIR </> "py-headers-3.12") ;;
  or_true (rm_rf HEADERS_OUT) ;;
  mkdir_p [HEADERS_OUT] ;;
  cp_R_glob (PY_SRC </> "Include") "" HEADERS_OUT ;;
  cp (PY_SRC </> "pyconfig.h") HEADERS_OUT ;;
  echo ("[cpython] PY_INC=" +:+ HEADERS_OUT) ;;
  echo "[cpython] PY_ABI=cp312".

(** Lines 70-144: the runtime's headers, unless they are there. *)
Definition cross_build_runtime (RT_DIR : string) : sh unit :=
  have ← test (λ f, is_dir f HEADERS_OUT);
  if negb have then
    fetch_python ;;
    verify_python ;;
    configure_and_copy_headers RT_DIR
  else mret ().

Definition build_cpython : sh unit :=
  PLATFORM ← detect_platform;
  RT_DIR ← provision_toolchain PLATFORM;
  cross_build_runtime RT_DIR.

End CPython.

End Scripts.

(** ** Running a script *)

(** The state a script starts in. *)
Definition boot (f : filesys) (budget : option nat) : state :=
  {| fs := f; trace := []; crash_in := budget |}.

(** The content and mode of the regular file at [p], if there is one. *)
Definition file_at (f : filesys) (p : string) : option (string * bool) :=
  match f !! p with Some (File c x) => Some (c, x) | _ => None end.

(** [f'] differs from [f] within the paths [W] only: outside them the
    regular files are the same and the directories of [f] are still
    there. *)
Definition keeps (W : string → Prop) (f f' : filesys) : Prop :=
  ∀ p, ¬ W p →
       file_at f' p = file_at f p
       ∧ (is_dir f p = true → is_dir f' p = true).

(** What a program may do: it stays within the paths [W], it only adds
    events that satisfy [P] to the trace, and it does not invent a
    crash. *)
Definition acts {A} (W : string → Prop) (P : event → Prop) (c : sh A)
  : Prop :=
  ∀ s,
    keeps W (fs s) (fs (c s).2)
    ∧ (∃ evs, trace (c s).2 = trace s ++ evs ∧ Forall P evs)
    ∧ (crash_in s = None → crash_in (c s).2 = None).

(** The paths that start with [d]. *)
Definition below (d : string) : string → Prop :=
  λ p, String.prefix d p = true.

(** ** The stages *)

Inductive extension := Xxhash | Msgspec.

Definition ext_name (e : extension) : string :=
  match e with Xxhash => "xxhash" | Msgspec => "msgspec" end.

(** The file name of the compiled module ([EXT_NAME]). *)
Definition module_filename (e : extension) : string :=
  match e with Xxhash => xxhash_EXT_NAME | Msgspec => msgspec_EXT_NAME end.

(** The module's name inside its package. *)
Definition module_basename (e : extension) : string :=
  match e with Xxhash => "_xxhash" | Msgspec => "_core" end.

(** The entry symbol the runtime looks up in a module. *)
Definition entry_symbol (e : extension) : string :=
  "PyInit_" +:+ module_basename e.

(** The arguments of the stage's link step. *)
Definition link_argv (ROOT : string) (e : extension) (RT_DIR : string)
  : list string :=
  match e with
  | Xxhash => xxhash_link_argv RT_DIR (PKG_DIR ROOT "xxhash")
                (OBJ_DIR ROOT "xxhash")
  | Msgspec => msgspec_link_argv RT_DIR (PKG_DIR ROOT "msgspec")
                 (OBJ_DIR ROOT "msgspec")
  end.

(** What the environment and the machine give a run. *)
Record inputs := Inputs {
  XXHASH_VER_env : option string;
  MSGSPEC_VER_env : option string;
  OSTYPE : string;
  uname_m : string
}.

Definition ext_version (i : inputs) (e : extension) : string :=
  match e with
  | Xxhash => XXHASH_VER (XXHASH_VER_env i)
  | Msgspec => MSGSPEC_VER (MSGSPEC_VER_env i)
  end.

Definition build_extension (T : tools) (ROOT : string) (i : inputs)
    (e : extension) : sh unit :=
  match e with
  | Xxhash => build_xxhash T ROOT (XXHASH_VER_env i)
  | Msgspec => build_msgspec T ROOT (MSGSPEC_VER_env i)
  end.

(** The stages that fetch a pinned archive.  The runtime stage is the
    second half of [build_cpython.sh]; it is given the [RT_DIR] the
    toolchain stage found. *)
Inductive stage :=
| Extension (e : extension)
| Toolchain
| Runtime (RT_DIR : string).

Definition platform_of (i : inputs) : string :=
  match Platform.detect (OSTYPE i) (uname_m i) with
  | Platform.Tag p => p
  | Platform.UnsupportedOS _ => ""
  end.


(** The archive of a stage, as the checksum file names it. *)
Definition archive_name (i : inputs) (st : stage) : string :=
  match st with
  | Extension Xxhash => xxhash_ARCHIVE_NAME (XXHASH_VER_env i)
  | Extension Msgspec => msgspec_ARCHIVE_NAME (MSGSPEC_VER_env i)
  | Toolchain => WASI_TARBALL_NAME (platform_of i)
  | Runtime _ => PY_TARBALL_NAME
  end.

Definition archive_file (ROOT : string) (i : inputs) (st : stage) : string :=
  TOOL_DIR ROOT </> archive_name i st.

Definition archive_url (i : inputs) (st : stage) : string :=
  match st with
  | Extension Xxhash => xxhash_ARCHIVE_URL (XXHASH_VER_env i)
  | Extension Msgspec => msgspec_ARCHIVE_URL (MSGSPEC_VER_env i)
  | Toolchain => WASI_URL (platform_of i)
  | Runtime _ => PY_URL
  end.

Definition sumfile (ROOT : string) (st : stage) : string :=
  match st with
  | Extension e => SUMFILE ROOT (ext_name e)
  | Toolchain => wasi_SUMFILE ROOT
  | Runtime _ => python_SUMFILE ROOT
  end.

(** Is the check run with [--ignore-missing]? *)
Definition ignore_missing (st : stage) : bool :=
  match st with Toolchain => true | _ => false end.

(** The verification step of a stage. *)
Definition stage_verify (T : tools) (ROOT : string) (st : stage) : sh unit :=
  match st with
  | Extension e => verify T ROOT (ext_name e)
  | Toolchain => verify_sdk T ROOT
  | Runtime _ => verify_python T ROOT
  end.




(** What the pipeline relies on the checksum tool for.  Run in the
    directory [cwd] on a checksum file that lists [name] with a digest
    which the file [name] of that directory does not have, the tool
    reports a failure, with [--ignore-missing] or without. *)
Definition rejects_mismatch (T : tools) : Prop :=
  ∀ flag cwd sums f text sum name bytes,
    is_dir f cwd = true →
    read_file f sums = Some text →
    Sums.listed text sum name →
    Sums.relative name = true →
    read_file f (cwd </> name) = Some bytes →
    Sums.lc sum ≠ digest T 64 bytes →
    shasum T flag cwd sums f ≠ 0.

(** Work on the sources: a compile or a link step. *)
Definition is_build_work (ev : event) : bool := is_compile ev || is_link ev.



(** The parts of a compiled-module file name
    [<module>.<ABI tag>-<target triple>.so], cut at the first dot, at the
    second hyphen after it and at the final [.so]. *)
Module ModuleName.

Fixpoint cut_at (c : ascii) (s : string) : option (string * string) :=
  match s with
  | EmptyString => None
  | String a s' =>
      if Ascii.eqb a c then Some (EmptyString, s')
      else '(l, r) ← cut_at c s'; Some (String a l, r)
  end.

Definition strip_suffix (suf s : string) : option string :=
  if Path.ends_with suf s
  then Some (String.substring 0 (String.length s - String.length suf) s)
  else None.

Record parts := Parts { module : string; abi_tag : string; triple : string }.

Definition parse (file : string) : option parts :=
  '(m, rest) ← cut_at "." file;
  '(impl, rest1) ← cut_at "-" rest;
  '(ver, rest2) ← cut_at "-" rest1;
  t ← strip_suffix ".so" rest2;
  Some (Parts m (impl +:+ "-" +:+ ver) t).

End ModuleName.

(** ** [build.sh], step 2: staging the dependencies

    The script that drives the others (the second script of the file
    [build_xxhash.sh] is kept in): it makes sure the toolchain and the
    runtime headers are there, fetches and verifies the prebuilt
    [pydantic_core] tarball, and runs the two extension builds whose
    tarball is missing.  Its third step, the assembly of the component
    with [uv] and [componentize-py], is not modelled. *)

(** [mkdir "$p"]: the directory must not exist and its parent must. *)
Definition mkdir1 (p : string) : sh unit :=
  command None
    (λ f, match f !! p with
          | Some _ => (Err 1, f)
          | None => if is_dir f (PathOps.dirname p)
                    then (Ret (), <[p := Dir]> f)
                    else (Err 1, f)
          end).

(** [bash "$script"]: the script runs as a child; its [exit] ends the
    child only, and a status other than zero is a failed command of the
    parent. *)
Definition bash (script : sh unit) : sh unit :=
  λ s, match script s with
       | (Ret _, s') | (Halt 0, s') => (Ret (), s')
       | (Halt (S n), s') => (Err (S n), s')
       | (Err n, s') => (Err n, s')
       | (Crash, s') => (Crash, s')
       end.

Definition PYDANTIC_TAR (ROOT : string) : string :=
  TOOL_DIR ROOT </> "pydantic_core-wasi.tar.gz".
Definition PYDANTIC_WASI_WHEEL : string :=
  "https://github.com/dicej/wasi-wheels/releases/download/latest/pydantic_core-wasi.tar.gz".
Definition pydantic_SUMFILE (ROOT : string) : string :=
  ROOT </> "pydantic.sha256sum".
Definition MSGSPEC_TAR (ROOT : string) : string :=
  TOOL_DIR ROOT </> "msgspec-wasi.tar.gz".
Definition XXHASH_TAR (ROOT : string) : string :=
  TOOL_DIR ROOT </> "xxhash-wasi.tar.gz".

(** [NEED_CPYTHON]: the compiler is not executable or the headers are
    missing. *)
Definition NEED_CPYTHON (ROOT : string) (f : filesys) : bool :=
  negb (is_executable f (WASI_DIR ROOT </> "bin/clang"))
  || negb (is_dir f (TOOL_DIR ROOT </> "py-headers-3.12")).

(** The prebuilt tarball: fetched unless cached, then verified. *)
Definition fetch_pydantic (T : tools) (ROOT : string) : sh unit :=
  fetch_unless_cached T (PYDANTIC_TAR ROOT) PYDANTIC_WASI_WHEEL
    ("Dowloading " +:+ PYDANTIC_TAR ROOT)
    ("Using cached " +:+ PYDANTIC_TAR ROOT) ;;
  verify_checksums T ROOT "Verifying checksum" (pydantic_SUMFILE ROOT) false.

(** One extension, built by its script unless its tarball is cached. *)
Definition build_unless_cached (T : tools) (ROOT : string) (i : inputs)
    (e : extension) : sh unit :=
  let tar := match e with
             | Msgspec => MSGSPEC_TAR ROOT
             | Xxhash => XXHASH_TAR ROOT
             end in
  cached ← test (λ f, is_file f tar);
  if negb cached then
    echo ("[guest] Building " +:+ ext_name e +:+ "-wasi.tar.gz via build_"
          +:+ ext_name e +:+ ".sh") ;;
    bash (build_extension T ROOT i e)
  else
    echo ("Using cached " +:+ tar).

Definition stage_deps (T : tools) (ROOT : string) (i : inputs) : sh unit :=
  echo "Step 2: Stage deps (deps/site-packages/...)" ;;
  or_true (mkdir1 (TOOL_DIR ROOT)) ;;
  need ← test (NEED_CPYTHON ROOT);
  (if need : bool then
     echo "[guest] Building CPython/WASI toolchain via build_cpython.sh" ;;
     bash (build_cpython T ROOT (OSTYPE i) (uname_m i))
   else mret ()) ;;
  fetch_pydantic T ROOT ;;
  build_unless_cached T ROOT i Msgspec ;;
  build_unless_cached T ROOT i Xxhash.

(** ** The fetches of the pipeline *)










(** ** A small concrete world

    A file system, a network and tools small enough to run the scripts on,
    used for the examples below. *)

Module Toy.

Fixpoint repeat_char (c : ascii) (n : nat) : string :=
  match n with
  | 0 => EmptyString
  | S n' => String c (repeat_char c n')
  end.

(** A stand-in hash: texts that start with ["ok"] hash to [aaa...],
    all others to [000...]. *)
Definition toy_digest (n : nat) (s : string) : string :=
  if String.prefix "ok" s then repeat_char "a" n else repeat_char "0" n.

Definition sum_line (name : string) : string :=
  repeat_char "a" 64 +:+ "  " +:+ name +:+ String "010" "".

(** A stand-in checksum tool, which knows the plain lines
    [<hex digest><blank><mode character><file name>] only.  It fails
    when no line is well formed, when a listed file has another digest
    or is a directory, and when a listed file is missing, unless it is
    told to ignore that; then it wants one file verified. *)
Definition is_blank (c : ascii) : bool :=
  Ascii.eqb c " " || Ascii.eqb c "009".

Fixpoint skip_blanks (s : string) : string :=
  match s with
  | String c s' => if is_blank c then skip_blanks s' else s
  | EmptyString => s
  end.

(** The longest hexadecimal prefix and what follows it. *)
Fixpoint span_hex (s : string) : string * string :=
  match s with
  | String c s' =>
      if Sums.is_hex c then let '(h, r) := span_hex s' in (String c h, r)
      else (EmptyString, s)
  | EmptyString => (EmptyString, EmptyString)
  end.

Definition is_mode (c : ascii) : bool :=
  Ascii.eqb c " " || Ascii.eqb c "*".

(** A checksum line: the digest as written and the file name. *)
Definition parse_line (l : string) : option (string * string) :=
  let '(sum, rest) := span_hex (skip_blanks l) in
  match rest with
  | String sep (String mode name) =>
      if is_blank sep && is_mode mode
         && bool_decide (String.length sum = 64)
         && negb (String.eqb name "")
      then Some (sum, name) else None
  | _ => None
  end.

Definition entries (text : string) : list (string * string) :=
  omap parse_line
    (filter (λ l, String.prefix "#" l = false) (Sums.lines text)).

Inductive line_result := Verified | Mismatch | Unreadable | Missing.

Global Instance line_result_eq_dec : EqDecision line_result.
Proof. solve_decision. Defined.

Definition check_entry (cwd : string) (f : filesys) (e : string * string)
  : line_result :=
  match f !! (cwd </> e.2) with
  | Some (File bytes _) =>
      if String.eqb (Sums.lc e.1) (toy_digest 64 bytes)
      then Verified else Mismatch
  | Some Dir => Unreadable
  | None => Missing
  end.

Definition toy_shasum (ignore_missing : bool) (cwd sums : string)
    (f : filesys) : nat :=
  match read_file f sums with
  | None => 2
  | Some text =>
      let rs := check_entry cwd f <$> entries text in
      if negb (bool_decide (rs = []))
         && forallb (λ r, match r with
                          | Verified => true
                          | Mismatch | Unreadable => false
                          | Missing => ignore_missing
                          end) rs
         && (negb ignore_missing
             || existsb (λ r, bool_decide (r = Verified)) rs)
      then 0 else 1
  end.

Definition xxhash_members : list (string * node) :=
  [ ("xxhash-3.4.1", Dir);
    ("xxhash-3.4.1/xxhash", Dir);
    ("xxhash-3.4.1/xxhash/__init__.py", File "import" false);
    ("xxhash-3.4.1/xxhash/__init__.pyi", File "stub" false);
    ("xxhash-3.4.1/xxhash/py.typed", File "" false);
    ("xxhash-3.4.1/src", Dir);
    ("xxhash-3.4.1/src/_xxhash.c", File "wrapper" false);
    ("xxhash-3.4.1/deps", Dir);
    ("xxhash-3.4.1/deps/xxhash", Dir);
    ("xxhash-3.4.1/deps/xxhash/xxhash.c", File "core" false) ].

Definition xxhash_350_members : list (string * node) :=
  [ ("xxhash-3.5.0", Dir);
    ("xxhash-3.5.0/xxhash", Dir);
    ("xxhash-3.5.0/xxhash/__init__.py", File "import" false);
    ("xxhash-3.5.0/src", Dir);
    ("xxhash-3.5.0/src/_xxhash.c", File "wrapper" false);
    ("xxhash-3.5.0/deps", Dir);
    ("xxhash-3.5.0/deps/xxhash", Dir);
    ("xxhash-3.5.0/deps/xxhash/xxhash.c", File "core" false) ].

Definition msgspec_members : list (string * node) :=
  [ ("msgspec-0.19.0", Dir);
    ("msgspec-0.19.0/msgspec", Dir);
    ("msgspec-0.19.0/msgspec/__init__.py", File "import" false);
    ("msgspec-0.19.0/msgspec/_core.c", File "core" false) ].

Definition toy_http_get (url : string) : fetched :=
  if String.eqb url (xxhash_ARCHIVE_URL None) then Body "ok xxhash"
  else if String.eqb url (xxhash_ARCHIVE_URL (Some "3.5.0"))
  then Body "tampered xxhash 3.5.0"
  else if String.eqb url (msgspec_ARCHIVE_URL None) then Body "ok msgspec"
  else Broken None.

Definition toy_untar (bytes : string) : option (list (string * node)) :=
  if String.eqb bytes "ok xxhash" then Some xxhash_members
  else if String.eqb bytes "tampered xxhash 3.5.0"
  then Some xxhash_350_members
  else if String.eqb bytes "ok msgspec" then Some msgspec_members
  else None.

Definition world : tools := {|
  digest := toy_digest;
  shasum := toy_shasum;
  http_get := toy_http_get;
  untar := toy_untar;
  mktar := λ members, "archive of " +:+ String.concat " " members.*1;
  resource_dir := λ _, Some "/res";
  compile := λ _ _, Some "object";
  link := λ _ _, Some "module";
  uv_sync := λ _ f, Some f;
  uv_python := λ _ _, Some "/usr/bin/python3";
  config_guess := λ _ _, "x86_64-pc-linux-gnu";
  configure := λ _ _ _ f, Some f
|}.

Definition ROOT : string := "/r".

(** A tool cache with the toolchain and the runtime headers in place. *)
Definition provisioned : filesys :=
  list_to_map
    [ ("/r", Dir);
      ("/r/_tooling", Dir);
      ("/r/_tooling/wasi-sdk-27.0", Dir);
      ("/r/_tooling/wasi-sdk-27.0/bin", Dir);
      ("/r/_tooling/wasi-sdk-27.0/bin/clang", File "clang" true);
      ("/r/_tooling/wasi-sdk-27.0/bin/wasm-ld", File "wasm-ld" true);
      ("/r/_tooling/py-headers-3.12", Dir);
      ("/res", Dir);
      ("/res/lib", Dir);
      ("/res/lib/wasm32-unknown-wasi", Dir);
      ("/res/lib/wasm32-unknown-wasi/libclang_rt.builtins.a",
       File "builtins" false);
      ("/r/xxhash.sha256sum", File (sum_line "xxhash-3.4.1-pypi.tar.gz") false);
      ("/r/msgspec.sha256sum",
       File (sum_line "msgspec-0.19.0-github.tar.gz") false) ].


Definition inputs : inputs := Inputs None None "linux-gnu" "x86_64".

(** The tool cache after an earlier xxhash build. *)
Definition with_xxhash_tarball : filesys :=
  <["/r/_tooling/xxhash-wasi.tar.gz" := File "archive" false]> provisioned.

(** The same, with the runtime headers deleted. *)
Definition tarball_but_no_headers : filesys :=
  delete "/r/_tooling/py-headers-3.12" with_xxhash_tarball.




(** The toolchain is unpacked, and its archive and checksum file are
    still there. *)
Definition sdk_extracted : filesys :=
  <["/r/_tooling/wasi-sdk-27.0-x86_64-linux.tar.gz" := File "ok sdk" false]>
    (<["/r/wasi-sdk.sha256sum"
       := File (sum_line "wasi-sdk-27.0-x86_64-linux.tar.gz") false]>
       provisioned).

(** No tarball and no runtime headers. *)
Definition no_headers : filesys :=
  delete "/r/_tooling/py-headers-3.12" provisioned.

End Toy.

(** ** Kinds of events *)

Definition is_echo (ev : event) : bool :=
  match ev with Echo _ => true | _ => false end.

(** The compiler asked where its resource directory is. *)
Definition is_query (ev : event) : bool :=
  match ev with
  | Clang _ argv => bool_decide (argv = ["--print-resource-dir"])
  | _ => false
  end.

(** The archiver started to write [out]. *)
Definition is_package (out : string) (ev : event) : bool :=
  match ev with
  | TarCreate o _ _ => bool_decide (o = out)
  | _ => false
  end.

(** A compile step of the extension's sources. *)
Definition is_source_compile (ev : event) : bool :=
  match ev with
  | Clang _ argv => bool_decide ("-c" ∈ argv)
  | _ => false
  end.

(** The events an extension build can produce. *)
Definition ext_event (ROOT : string) (i : inputs) (e : extension)
    (ev : event) : Prop :=
  is_echo ev = true
  ∨ is_query ev = true
  ∨ ev = Curl (archive_url i (Extension e)) (archive_file ROOT i (Extension e))
  ∨ is_verify ev = true
  ∨ is_extract ev = true
  ∨ is_source_compile ev = true
  ∨ (∃ ld RT_DIR, ev = WasmLd ld (link_argv ROOT e RT_DIR))
  ∨ is_package (OUT_TAR ROOT (ext_name e)) ev = true.


(** What a skipped extension stage prints. *)
Definition cache_hit_line (ROOT name : string) : string :=
  "[" +:+ name +:+ "] Cache hit: " +:+ OUT_TAR ROOT name
  +:+ " already exists; skipping build".

(** The statuses a program can [exit] with. *)
Definition halts {A} (H : nat → Prop) (c : sh A) : Prop :=
  ∀ s n, (c s).1 = Halt n → H n.

(** A property of states that a program keeps. *)
Definition preserves {A} (I : state → Prop) (c : sh A) : Prop :=
  ∀ s, I s → I (c s).2.

(** A regular file is at [out] only if the archiver was started on it. *)
Definition output_marked (out : string) (s : state) : Prop :=
  is_file (fs s) out = true → ∃ ev, ev ∈ trace s ∧ is_package out ev = true.

(** ** What a build works on *)


(** Work on the content of an archive: unpacking it, compiling, linking
    and packaging. *)
Definition is_stage_work (ev : event) : bool :=
  is_extract ev || is_build_work ev
  || match ev with TarCreate _ _ _ => true | _ => false end.


(** The state of the staging when it looks for the toolchain: nothing
    but the tool cache directory can be new, and only lines were
    printed. *)
Definition staging_started (ROOT : string) (f : filesys) (s : state)
  : Prop :=
  (∀ q, q ≠ TOOL_DIR ROOT → fs s !! q = f !! q)
  ∧ keeps (λ _, False) f (fs s)
  ∧ Forall (λ ev, is_echo ev = true) (trace s).

(** What the staging does about the toolchain, by [NEED_CPYTHON]. *)
Definition stage_toolchain (T : tools) (ROOT : string) (i : inputs)
    (need : bool) : sh unit :=
  if need then
    echo "[guest] Building CPython/WASI toolchain via build_cpython.sh" ;;
    bash (build_cpython T ROOT (OSTYPE i) (uname_m i))
  else mret ().

(** A tool cache with the prebuilt tarball and its checksum file. *)
Definition toy_staging_cache : filesys :=
  <["/r/_tooling/pydantic_core-wasi.tar.gz" := File "ok pydantic" false]>
    (<["/r/pydantic.sha256sum"
       := File (Toy.sum_line "pydantic_core-wasi.tar.gz") false]>
       Toy.provisioned).

(** The same, with a prebuilt tarball that is not the pinned one. *)
Definition toy_tampered_staging_cache : filesys :=
  <["/r/_tooling/pydantic_core-wasi.tar.gz" := File "tampered" false]>
    toy_staging_cache.

(** Everything staged already. *)
Definition toy_full_cache : filesys :=
  <["/r/_tooling/msgspec-wasi.tar.gz" := File "archive" false]>
    (<["/r/_tooling/xxhash-wasi.tar.gz" := File "archive" false]>
       toy_staging_cache).




(** A tool cache in which the toolchain is unpacked and the source of
    the runtime is unpacked and configured, but the headers have not
    been copied. *)
Definition toy_runtime_unpacked : filesys :=
  <["/r/_tooling/Python-3.12.0.tgz" := File "ok python" false]>
    (<["/r/python.sha256sum" := File (Toy.sum_line "Python-3.12.0.tgz") false]>
       (<["/r/_tooling/Python-3.12.0" := Dir]>
          (<["/r/_tooling/Python-3.12.0/Include" := Dir]>
             (<["/r/_tooling/Python-3.12.0/Include/Python.h"
                := File "header" false]>
                (<["/r/_tooling/Python-3.12.0/pyconfig.h"
                   := File "config" false]>
                   (delete "/r/_tooling/py-headers-3.12"
                      Toy.sdk_extracted)))))).

(** * Properties *)

(** ** Strings *)

Section StringFacts.

Local Arguments String.append !_ _ / : simpl nomatch.

Lemma append_cons (a : ascii) (s t : string) :
  String a s +:+ t = String a (s +:+ t).
Proof. reflexivity. Qed.

Lemma append_nil_r (s : string) : s +:+ "" = s.
Proof. induction s as [|a s IH]; simpl; [done | by rewrite IH]. Qed.

Lemma append_assoc (a b c : string) : (a +:+ b) +:+ c = a +:+ (b +:+ c).
Proof. induction a as [|x a IH]; simpl; [done | by rewrite IH]. Qed.

Lemma length_append (a b : string) :
  String.length (a +:+ b) = String.length a + String.length b.
Proof. induction a as [|x a IH]; simpl; [done | by rewrite IH]. Qed.

Lemma prefix_cancel (a b c : string) :
  String.prefix (a +:+ b) (a +:+ c) = String.prefix b c.
Proof.
  induction a as [|x a IH]; simpl; [done |].
  destruct (ascii_dec x x); [done | congruence].
Qed.

Lemma prefix_nil (s : string) : String.prefix "" s = true.
Proof. by destruct s. Qed.

Lemma prefix_append (a b : string) : String.prefix a (a +:+ b) = true.
Proof.
  rewrite <- (append_nil_r a) at 1. rewrite prefix_cancel. apply prefix_nil.
Qed.

Lemma prefix_elim (a s : string) :
  String.prefix a s = true → ∃ r, s = a +:+ r.
Proof.
  revert s. induction a as [|x a IH]; intros s H.
  - by exists s.
  - destruct s as [|y s]; simpl in H; [done |].
    destruct (ascii_dec x y) as [-> |]; [| done].
    destruct (IH s H) as [r ->]. by exists r.
Qed.

Lemma prefix_trans (a b s : string) :
  String.prefix a b = true → String.prefix b s = true →
  String.prefix a s = true.
Proof.
  intros [r ->]%prefix_elim [r' ->]%prefix_elim.
  rewrite append_assoc. apply prefix_append.
Qed.

Lemma under_prefix (d p : string) :
  Path.under d p = true → String.prefix d p = true.
Proof.
  unfold Path.under. intros H. apply orb_prop in H as [H | H].
  - apply String.eqb_eq in H as ->.
    rewrite <- (append_nil_r d) at 2. apply prefix_append.
  - eapply prefix_trans; [| exact H]. apply prefix_append.
Qed.

End StringFacts.

(** ** Platform resolution *)

(** C3, as the code has it.  The operating system is read from bash's
    [OSTYPE]: a value that starts with [linux-gnu] or [darwin] gives the
    four published tags for the four machine names, any other value is
    refused as unsupported, and that is the only refusal: the machine name
    is never checked. *)
Theorem platform_resolution :
  (∀ v, Platform.detect ("linux-gnu" +:+ v) "x86_64"
        = Platform.Tag "x86_64-linux")
  ∧ (∀ v, Platform.detect ("linux-gnu" +:+ v) "aarch64"
          = Platform.Tag "arm64-linux")
  ∧ (∀ v, Platform.detect ("darwin" +:+ v) "x86_64"
          = Platform.Tag "x86_64-macos")
  ∧ (∀ v, Platform.detect ("darwin" +:+ v) "arm64"
          = Platform.Tag "arm64-macos")
  ∧ (∀ os arch,
       (∃ msg, Platform.detect os arch = Platform.UnsupportedOS msg)
       ↔ (String.prefix "linux-gnu" os = false
          ∧ String.prefix "darwin" os = false)).
Proof.
  assert (Hd : ∀ v, String.prefix "linux-gnu" ("darwin" +:+ v) = false).
  { intros v. change ("darwin" +:+ v) with (String "d" ("arwin" +:+ v)).
    reflexivity. }
  split; [| split; [| split; [| split]]].
  - intros v. unfold Platform.detect. by rewrite prefix_append.
  - intros v. unfold Platform.detect. by rewrite prefix_append.
  - intros v. unfold Platform.detect. by rewrite Hd, prefix_append.
  - intros v. unfold Platform.detect. by rewrite Hd, prefix_append.
  - intros os arch. unfold Platform.detect. split.
    + intros [msg H].
      destruct (String.prefix "linux-gnu" os); [done |].
      by destruct (String.prefix "darwin" os).
    + intros [-> ->]. eauto.
Qed.

Lemma platform_resolution_witness :
  Platform.detect "linux-gnu" "aarch64" = Platform.Tag "arm64-linux"
  ∧ ((∃ msg, Platform.detect "freebsd14.0" "x86_64"
             = Platform.UnsupportedOS msg)
     ↔ (String.prefix "linux-gnu" "freebsd14.0" = false
        ∧ String.prefix "darwin" "freebsd14.0" = false)).
Proof.
  split.
  - exact (proj1 (proj2 platform_resolution) "").
  - exact (proj2 (proj2 (proj2 (proj2 platform_resolution)))
             "freebsd14.0" "x86_64").
Defined.

(** C3 as stated fails: a machine name outside the table is not refused.
    On Linux, [riscv64] resolves to a platform tag, one that is not among
    the four published ones. *)
Lemma platform_resolution_counterexample :
  Platform.detect "linux-gnu" "riscv64" = Platform.Tag "riscv64-linux"
  ∧ ("riscv64-linux" ∉ Platform.known_tags)
  ∧ ¬ (∃ msg, Platform.detect "linux-gnu" "riscv64"
              = Platform.UnsupportedOS msg).
Proof.
  split; [reflexivity |]. split.
  - unfold Platform.known_tags. rewrite !elem_of_cons, elem_of_nil.
    intros [H | [H | [H | [H | []]]]]; discriminate H.
  - intros [msg H]. discriminate H.
Qed.

(** ** Names of the compiled modules *)

(** C8.  The file names of the modules of any two extensions carry the
    same ABI tag and the same target triple, the ones of [CPYTHON_TAG] and
    [wasm32-wasi], and each link step writes its module under that
    name. *)
Theorem module_names_agree (e1 e2 : extension) :
  ∃ p1 p2,
    ModuleName.parse (module_filename e1) = Some p1
    ∧ ModuleName.parse (module_filename e2) = Some p2
    ∧ ModuleName.module p1 = module_basename e1
    ∧ ModuleName.abi_tag p1 = ModuleName.abi_tag p2
    ∧ ModuleName.triple p1 = ModuleName.triple p2
    ∧ ModuleName.abi_tag p1 = CPYTHON_TAG
    ∧ ModuleName.triple p1 = "wasm32-wasi"
    ∧ ∀ ROOT RT_DIR,
        (PKG_DIR ROOT (ext_name e1) </> ext_name e1 </> module_filename e1)
        ∈ link_argv ROOT e1 RT_DIR.
Proof.
  destruct e1, e2; do 2 eexists;
    (split; [reflexivity |]); (split; [reflexivity |]);
    repeat (split; [reflexivity |]);
    intros ROOT RT_DIR; cbn [link_argv ext_name module_filename];
    unfold xxhash_link_argv, msgspec_link_argv;
    rewrite !elem_of_cons; tauto.
Qed.

(** ** File system *)

Section FileSystemFacts.

Implicit Types (f : filesys) (p q d : string) (W : string → Prop).

Lemma is_file_file_at f p :
  is_file f p = match file_at f p with Some _ => true | None => false end.
Proof. unfold is_file, file_at. by destruct (f !! p) as [[]|]. Qed.

Lemma read_file_file_at f p : read_file f p = fst <$> file_at f p.
Proof. unfold read_file, file_at. by destruct (f !! p) as [[]|]. Qed.

Lemma read_file_eq f f' p :
  file_at f' p = file_at f p → read_file f' p = read_file f p.
Proof. intros E. by rewrite !read_file_file_at, E. Qed.


Lemma file_at_not_dir f p v :
  file_at f p = Some v → is_dir f p = false.
Proof. unfold file_at, is_dir. by destruct (f !! p) as [[]|]. Qed.

Lemma keeps_refl W f : keeps W f f.
Proof. by intros p _. Qed.

Lemma keeps_trans W f1 f2 f3 :
  keeps W f1 f2 → keeps W f2 f3 → keeps W f1 f3.
Proof.
  intros H12 H23 p Hp. destruct (H12 p Hp) as [E1 D1].
  destruct (H23 p Hp) as [E2 D2]. split; [congruence | auto].
Qed.

Lemma keeps_weaken W W' f f' :
  (∀ p, W p → W' p) → keeps W f f' → keeps W' f f'.
Proof. intros HW H p Hp. apply H. naive_solver. Qed.

(** A new directory where nothing was changes nothing that was there. *)
Lemma keeps_insert_dir W f q :
  f !! q = None → keeps W f (<[q := Dir]> f).
Proof.
  intros Hq p _. unfold file_at, is_dir.
  destruct (decide (q = p)) as [-> | Hne].
  - rewrite lookup_insert_eq, Hq. done.
  - rewrite lookup_insert_ne by done. done.
Qed.

Lemma keeps_mkdirs W ps f : keeps W f (mkdirs ps f).2.
Proof.
  revert f. induction ps as [|q ps IH]; intros f; simpl.
  - apply keeps_refl.
  - destruct (f !! q) as [[c x |] |] eqn:Hq.
    + apply keeps_refl.
    + apply IH.
    + eapply keeps_trans; [by apply keeps_insert_dir | apply IH].
Qed.

Lemma keeps_mkdir_all W ps f : keeps W f (mkdir_all ps f).2.
Proof.
  revert f. induction ps as [|q ps IH]; intros f; simpl.
  - apply keeps_refl.
  - unfold mkdir_p1.
    pose proof (keeps_mkdirs W (Path.ancestors q ++ [q]) f) as H1.
    destruct (mkdirs (Path.ancestors q ++ [q]) f) as [ok f1].
    pose proof (IH f1) as H2.
    destruct (mkdir_all ps f1) as [ok' f2]. simpl in *.
    by eapply keeps_trans.
Qed.

Lemma keeps_remove_tree W d f :
  (∀ p, Path.under d p = true → W p) → keeps W f (remove_tree d f).
Proof.
  intros HW p Hp.
  assert (Path.under d p = false) as Hu.
  { destruct (Path.under d p) eqn:E; [| done]. destruct Hp. by apply HW. }
  assert (remove_tree d f !! p = f !! p) as E.
  { unfold remove_tree. apply option_eq. intros n.
    rewrite map_lookup_filter_Some. simpl. tauto. }
  unfold file_at, is_dir. by rewrite E.
Qed.

Lemma keeps_insert W f q n : W q → keeps W f (<[q := n]> f).
Proof.
  intros Hq p Hp. unfold file_at, is_dir.
  rewrite lookup_insert_ne by (intros ->; done). done.
Qed.

Lemma keeps_delete W f q : W q → keeps W f (delete q f).
Proof.
  intros Hq p Hp. unfold file_at, is_dir.
  rewrite lookup_delete_ne by (intros ->; done). done.
Qed.

Lemma keeps_write_all W ws f :
  (∀ w, w ∈ ws → W w.1) → keeps W f (write_all ws f).
Proof.
  intros HW p Hp.
  assert (write_all ws f !! p = f !! p) as E.
  { unfold write_all. apply lookup_union_r.
    apply not_elem_of_list_to_map_1. intros Hin.
    apply list_elem_of_fmap in Hin. destruct Hin as [w [E Hw]].
    apply Hp. rewrite E. by apply HW. }
  unfold file_at, is_dir. by rewrite E.
Qed.

Lemma subtree_as_below src dst f w :
  w ∈ subtree_as src dst f → below dst w.1.
Proof.
  unfold subtree_as. intros Hw.
  apply list_elem_of_omap in Hw as [kv [_ Hkv]].
  destruct (Path.under src kv.1); [| done]. simplify_eq. simpl.
  apply prefix_append.
Qed.

End FileSystemFacts.

(** ** What each command may do *)

Section Acts.

Context {T : tools}.
Implicit Types (W : string → Prop) (P : event → Prop).

Lemma acts_weaken {A} W W' P P' (c : sh A) :
  (∀ p, W p → W' p) → (∀ e, P e → P' e) → acts W P c → acts W' P' c.
Proof.
  intros HW HP H s. destruct (H s) as (K & (evs & E & F) & C).
  split; [by eapply keeps_weaken |]. split; [| done].
  exists evs. split; [done |]. eapply Forall_impl; eauto.
Qed.

Lemma acts_idle {A} W P (c : sh A) :
  (∀ s, (c s).2 = s) → acts W P c.
Proof.
  intros H s. rewrite H. split; [apply keeps_refl |]. split; [| done].
  exists []. by rewrite app_nil_r.
Qed.

Lemma acts_ret {A} W P (a : A) : acts W P (mret a).
Proof. by apply acts_idle. Qed.

Lemma acts_exit {A} W P n : acts W P (@exit A n).
Proof. by apply acts_idle. Qed.

Lemma acts_fail {A} W P n : acts W P (@fail A n).
Proof. by apply acts_idle. Qed.

Lemma acts_test W P b : acts W P (test b).
Proof. by apply acts_idle. Qed.

Lemma acts_bind {A B} W P (c : sh A) (k : A → sh B) :
  acts W P c → (∀ a, acts W P (k a)) → acts W P (c ≫= k).
Proof.
  intros Hc Hk s. unfold mbind, sh_mbind, sh_bind.
  specialize (Hc s). destruct (c s) as [[a | n | n |] s1]; simpl in *; try done.
  specialize (Hk a s1). destruct (k a s1) as [o s2]; simpl in *.
  destruct Hc as (K1 & (e1 & E1 & F1) & C1).
  destruct Hk as (K2 & (e2 & E2 & F2) & C2).
  split; [by eapply keeps_trans |]. split; [| auto].
  exists (e1 ++ e2). rewrite E2, E1, app_assoc. split; [done |].
  by apply Forall_app.
Qed.

Lemma acts_or_true W P (c : sh unit) : acts W P c → acts W P (or_true c).
Proof.
  intros Hc s. unfold or_true. specialize (Hc s).
  by destruct (c s) as [[a | n | n |] s1].
Qed.

Lemma acts_command {A} W P ev (body : filesys → outcome A * filesys) :
  (∀ f, keeps W f (body f).2) → (∀ e, ev = Some e → P e) →
  acts W P (command ev body).
Proof.
  intros Hb He s. unfold command.
  destruct (crash_in s) as [[| n] |] eqn:Hc.
  - simpl. split; [apply keeps_refl |]. split; [| done].
    exists []. by rewrite app_nil_r.
  - specialize (Hb (fs s)). destruct (body (fs s)) as [o f']. simpl in *.
    split; [done |]. split; [| done]. exists (option_list ev).
    split; [done |]. destruct ev; simpl; auto.
  - specialize (Hb (fs s)). destruct (body (fs s)) as [o f']. simpl in *.
    split; [done |]. split; [| done]. exists (option_list ev).
    split; [done |]. destruct ev; simpl; auto.
Qed.

Lemma acts_echo W P l : P (Echo l) → acts W P (echo l).
Proof.
  intros H. apply acts_command; [intros f; apply keeps_refl |].
  by intros e [= <-].
Qed.

Lemma acts_mkdir_p W P ps : acts W P (mkdir_p ps).
Proof.
  apply acts_command; [| done]. intros f.
  pose proof (keeps_mkdir_all W ps f). by destruct (mkdir_all ps f).
Qed.

Lemma acts_rm_rf W P d :
  (∀ p, below d p → W p) → acts W P (rm_rf d).
Proof.
  intros H. apply acts_command; [| done]. intros f. simpl.
  apply keeps_remove_tree. intros p Hp. by apply H, under_prefix.
Qed.

Lemma acts_rm_f W P p : W p → acts W P (rm_f p).
Proof.
  intros H. apply acts_command; [| done]. intros f.
  destruct (f !! p) as [[] |]; simpl;
    first [apply keeps_refl | by apply keeps_delete].
Qed.

Lemma acts_curl W P out url :
  W out → P (Curl url out) → acts W P (curl_fL_o T out url).
Proof.
  intros HW HP. apply acts_command; [| by intros e [= <-]]. intros f.
  destruct (creatable f out); [| apply keeps_refl].
  destruct (http_get T url) as [b | [part |]]; simpl;
    first [apply keeps_refl | by apply keeps_insert].
Qed.

Lemma acts_shasum_c W P cwd sums flag :
  P (ShasumCheck sums flag) → acts W P (shasum_c T cwd sums flag).
Proof.
  intros HP. apply acts_bind; [apply acts_test |]. intros [].
  - apply acts_command; [| by intros e [= <-]]. intros f.
    apply keeps_refl.
  - apply acts_fail.
Qed.

Lemma acts_tar_xf W P dir archive :
  (∀ p, below dir p → W p) → P (TarExtract archive dir) →
  acts W P (tar_xf T dir archive).
Proof.
  intros HW HP. apply acts_command; [| by intros e [= <-]]. intros f.
  destruct (is_dir f dir); [| apply keeps_refl].
  destruct (read_file f archive ≫= untar T) as [members |];
    [| apply keeps_refl].
  simpl. apply keeps_write_all. intros w Hw.
  apply list_elem_of_fmap in Hw. destruct Hw as [[m n] [-> _]]. simpl.
  apply HW. unfold below, Path.join. apply prefix_append.
Qed.

Lemma acts_tar_czf W P dir out member :
  W out → P (TarCreate out dir member) →
  acts W P (tar_czf T dir out member).
Proof.
  intros HW HP. apply acts_bind; [| intros _].
  - apply acts_command; [| by intros e [= <-]]. intros f.
    destruct (creatable f out); simpl;
      [by apply keeps_insert | apply keeps_refl].
  - apply acts_command; [| done]. intros f.
    destruct (_ && _); simpl; [by apply keeps_insert | apply keeps_refl].
Qed.

Lemma acts_cp_R_glob W P dir suf dst :
  (∀ p, below dst p → W p) → acts W P (cp_R_glob dir suf dst).
Proof.
  intros HW. apply acts_command; [| done]. intros f.
  destruct (glob_suffix dir suf f) as [| n names] eqn:E;
    [apply keeps_refl |].
  destruct (is_dir f dst); [| apply keeps_refl]. cbn [snd].
  apply keeps_write_all. intros w Hw.
  apply list_elem_of_join in Hw. destruct Hw as [l [Hw Hl]].
  apply list_elem_of_fmap in Hl. destruct Hl as [m [-> _]].
  apply subtree_as_below in Hw. apply HW.
  eapply prefix_trans; [| exact Hw]. apply prefix_append.
Qed.

Lemma acts_cp_R W P src dst :
  (∀ p, below dst p → W p) → acts W P (cp_R src dst).
Proof.
  intros HW. apply acts_command; [| done]. intros f.
  destruct (_ && _); [| apply keeps_refl]. simpl.
  apply keeps_write_all. intros w Hw.
  apply subtree_as_below in Hw. apply HW.
  eapply prefix_trans; [| exact Hw]. apply prefix_append.
Qed.

Lemma acts_cp W P src dst :
  (∀ p, below dst p → W p) → acts W P (cp src dst).
Proof.
  intros HW. apply acts_command; [| done]. intros f.
  destruct (f !! src) as [[c x |] |]; try apply keeps_refl.
  destruct (is_dir f dst); [| apply keeps_refl]. simpl.
  apply keeps_insert, HW, prefix_append.
Qed.

Lemma acts_clang_print_resource_dir W P clang :
  P (Clang clang ["--print-resource-dir"]) →
  acts W P (clang_print_resource_dir T clang).
Proof.
  intros HP. apply acts_command; [| by intros e [= <-]]. intros f.
  destruct (f !! clang) as [[bin [] |] |]; try apply keeps_refl.
  destruct (resource_dir T bin); apply keeps_refl.
Qed.

Lemma acts_clang_c W P clang argv out :
  W out → P (Clang clang argv) → acts W P (clang_c T clang argv out).
Proof.
  intros HW HP. apply acts_command; [| by intros e [= <-]]. intros f.
  destruct (f !! clang) as [[bin [] |] |]; try apply keeps_refl.
  destruct (compile T argv f); simpl;
    [by apply keeps_insert | apply keeps_refl].
Qed.

Lemma acts_wasm_ld W P ld argv out :
  W out → P (WasmLd ld argv) → acts W P (wasm_ld T ld argv out).
Proof.
  intros HW HP. apply acts_command; [| by intros e [= <-]]. intros f.
  destruct (f !! ld) as [[bin [] |] |]; try apply keeps_refl.
  destruct (link T argv f); simpl;
    [by apply keeps_insert | apply keeps_refl].
Qed.

End Acts.

(** ** What each part of an extension build may do *)

Ltac acts_step :=
  lazymatch goal with
  | |- acts _ _ (_ ≫= _) => apply acts_bind; [| intros ?]
  | |- acts _ _ (mret _) => apply acts_ret
  | |- acts _ _ (or_true _) => apply acts_or_true
  | |- acts _ _ (exit _) => apply acts_exit
  | |- acts _ _ (fail _) => apply acts_fail
  | |- acts _ _ (test _) => apply acts_test
  | |- acts _ _ (echo _) => apply acts_echo
  | |- acts _ _ (say _ _) => apply acts_echo
  | |- acts _ _ (mkdir_p _) => apply acts_mkdir_p
  | |- acts _ _ (rm_rf _) => apply acts_rm_rf
  | |- acts _ _ (rm_f _) => apply acts_rm_f
  | |- acts _ _ (curl_fL_o _ _ _) => apply acts_curl
  | |- acts _ _ (shasum_c _ _ _ _) => apply acts_shasum_c
  | |- acts _ _ (tar_xf _ _ _) => apply acts_tar_xf
  | |- acts _ _ (tar_czf _ _ _ _) => apply acts_tar_czf
  | |- acts _ _ (cp_R_glob _ _ _) => apply acts_cp_R_glob
  | |- acts _ _ (cp_R _ _) => apply acts_cp_R
  | |- acts _ _ (cp _ _) => apply acts_cp
  | |- acts _ _ (clang_print_resource_dir _ _) =>
      apply acts_clang_print_resource_dir
  | |- acts _ _ (clang_c _ _ _ _) => apply acts_clang_c
  | |- acts _ _ (wasm_ld _ _ _ _) => apply acts_wasm_ld
  | |- acts _ _ (if negb ?b then _ else _) => destruct b; cbn [negb]
  | |- acts _ _ (if ?b then _ else _) => destruct b
  | |- acts _ _ (match ?x with _ => _ end) => destruct x
  end.

(** A path written as [d] followed by more text starts with [d]. *)
Ltac starts_with :=
  unfold below, PKG_DIR, OBJ_DIR, SRC_TOP_DIR, Path.join;
  rewrite ?append_assoc; apply prefix_append.

Ltac inside :=
  let p := fresh "p" in
  let H := fresh "H" in
  intros p H; unfold below in *;
  first [ exact H
        | eapply prefix_trans; [| exact H]; starts_with ].

Section ExtensionActs.

Context (T : tools) (ROOT : string).
Implicit Types (name VER : string).

Lemma acts_prepare name :
  acts (below (BUILD_DIR ROOT name))
       (λ ev, is_echo ev = true ∨ is_query ev = true)
       (prepare T ROOT name).
Proof.
  unfold prepare, check_prerequisites.
  repeat acts_step; try (left; reflexivity); try (right; reflexivity);
    inside.
Qed.

Lemma acts_fetch name url file :
  acts (λ p, p = file)
       (λ ev, is_echo ev = true ∨ ev = Curl url file)
       (fetch T name url file).
Proof. unfold fetch, fetch_unless_cached. repeat acts_step; auto. Qed.

Lemma acts_verify name :
  acts (λ _, False)
       (λ ev, is_echo ev = true ∨ is_verify ev = true)
       (verify T ROOT name).
Proof. unfold verify, verify_checksums. repeat acts_step; auto. Qed.

Lemma acts_unpack name VER file :
  acts (below (BUILD_DIR ROOT name))
       (λ ev, is_echo ev = true ∨ is_extract ev = true)
       (unpack T ROOT name VER file).
Proof. unfold unpack. repeat acts_step; auto; inside. Qed.

End ExtensionActs.

Section ExtensionBuildActs.

Context (T : tools) (ROOT : string) (i : inputs).

Lemma acts_xxhash_copy_sources ver :
  acts (below (BUILD_DIR ROOT "xxhash")) (λ ev, is_echo ev = true)
       (xxhash_copy_sources ROOT ver).
Proof. unfold xxhash_copy_sources. repeat acts_step; inside. Qed.

Lemma acts_msgspec_copy_sources ver :
  acts (below (BUILD_DIR ROOT "msgspec")) (λ ev, is_echo ev = true)
       (msgspec_copy_sources ROOT ver).
Proof. unfold msgspec_copy_sources. repeat acts_step; inside. Qed.

Lemma acts_xxhash_find_wrapper ver :
  acts (below (BUILD_DIR ROOT "xxhash")) (λ ev, is_echo ev = true)
       (xxhash_find_wrapper ROOT ver).
Proof. unfold xxhash_find_wrapper. repeat acts_step; done. Qed.

Lemma acts_xxhash_compile_link ver hdrs rt :
  acts (below (BUILD_DIR ROOT "xxhash"))
       (λ ev, is_echo ev = true ∨ is_source_compile ev = true
              ∨ ∃ ld, ev = WasmLd ld (link_argv ROOT Xxhash rt))
       (xxhash_compile_link T ROOT ver hdrs rt).
Proof.
  unfold xxhash_compile_link.
  acts_step; [acts_step; auto |].
  acts_step; [acts_step; acts_step |].
  acts_step.
  { eapply acts_weaken; [| | apply acts_xxhash_find_wrapper]; auto. }
  repeat acts_step; auto; try starts_with.
  right; right. eauto.
Qed.

Lemma acts_msgspec_compile_link ver hdrs rt :
  acts (below (BUILD_DIR ROOT "msgspec"))
       (λ ev, is_echo ev = true ∨ is_source_compile ev = true
              ∨ ∃ ld, ev = WasmLd ld (link_argv ROOT Msgspec rt))
       (msgspec_compile_link T ROOT ver hdrs rt).
Proof.
  unfold msgspec_compile_link.
  repeat acts_step; auto; try starts_with.
  right; right. eauto.
Qed.

Lemma acts_xxhash_package :
  acts (λ p, p = OUT_TAR ROOT "xxhash")
       (λ ev, is_echo ev = true
              ∨ is_package (OUT_TAR ROOT "xxhash") ev = true)
       (xxhash_package T ROOT).
Proof.
  unfold xxhash_package. repeat acts_step; auto.
  right. cbn. by apply bool_decide_eq_true.
Qed.

Lemma acts_msgspec_package :
  acts (λ p, p = OUT_TAR ROOT "msgspec")
       (λ ev, is_echo ev = true
              ∨ is_package (OUT_TAR ROOT "msgspec") ev = true)
       (msgspec_package T ROOT).
Proof.
  unfold msgspec_package. repeat acts_step; auto.
  right. cbn. by apply bool_decide_eq_true.
Qed.

End ExtensionBuildActs.

(** ** Path names of the pipeline *)

Ltac unfold_paths :=
  unfold archive_file, archive_name, sumfile, OUT_TAR, BUILD_DIR, SUMFILE,
    xxhash_ARCHIVE_FILE, xxhash_ARCHIVE_NAME, msgspec_ARCHIVE_FILE,
    msgspec_ARCHIVE_NAME, WASI_TARBALL, WASI_TARBALL_NAME, wasi_SUMFILE,
    PY_TARBALL, PY_TARBALL_NAME, python_SUMFILE, HEADERS_OUT, PY_SRC,
    WASI_DIR, TOOL_DIR, Path.join in *;
  cbn [ext_name] in *;
  rewrite ?append_assoc in *.

(** [d] and [p] are written from the same root and part ways in their
    literal text. *)
Ltac not_below :=
  let H := fresh "H" in
  unfold below; intros H; unfold_paths;
  rewrite prefix_cancel in H; vm_compute in H; discriminate H.

Ltac apart :=
  let H := fresh "H" in
  intros H; unfold_paths;
  apply (inj (String.append _)) in H; vm_compute in H; try discriminate H.

Section PathFacts.

Context (ROOT : string) (i : inputs).

Lemma out_not_in_build e :
  ¬ below (BUILD_DIR ROOT (ext_name e)) (OUT_TAR ROOT (ext_name e)).
Proof. destruct e; not_below. Qed.





Lemma out_not_archive e :
  OUT_TAR ROOT (ext_name e) ≠ archive_file ROOT i (Extension e).
Proof.
  destruct e; apart.
  - injection H as H. apply (f_equal String.length) in H.
    rewrite length_append in H. simpl in H. lia.
  - injection H as H. apply (f_equal String.length) in H.
    rewrite length_append in H. simpl in H. lia.
Qed.

End PathFacts.

(** ** The final artifact is written by the packaging step only *)

Section OutputMarked.

Context (T : tools).

Lemma preserves_bind {A B} (I : state → Prop) (c : sh A) (k : A → sh B) :
  preserves I c → (∀ a, preserves I (k a)) → preserves I (c ≫= k).
Proof.
  intros Hc Hk s Hs. unfold mbind, sh_mbind, sh_bind.
  specialize (Hc s Hs). destruct (c s) as [[a | n | n |] s1]; try done.
  by apply Hk.
Qed.

Lemma preserves_or_true (I : state → Prop) (c : sh unit) :
  preserves I c → preserves I (or_true c).
Proof.
  intros Hc s Hs. unfold or_true. specialize (Hc s Hs).
  by destruct (c s) as [[a | n | n |] s1].
Qed.

(** A program that stays away from [out] keeps the mark. *)
Lemma acts_preserves_marked {A} W P (c : sh A) out :
  acts W P c → ¬ W out → preserves (output_marked out) c.
Proof.
  intros Hc HW s Hs Hfile. destruct (Hc s) as (K & (evs & E & _) & _).
  destruct (K out HW) as [Hf _].
  rewrite is_file_file_at, Hf, <- is_file_file_at in Hfile.
  destruct (Hs Hfile) as (ev & Hin & Hev). exists ev. split; [| done].
  rewrite E. apply elem_of_app. by left.
Qed.

Lemma preserves_marked_rm_f out :
  preserves (output_marked out) (rm_f out).
Proof.
  intros s Hs. unfold rm_f, command.
  destruct (crash_in s) as [[| n] |]; [done | |];
    (destruct (fs s !! out) as [[c x |] |] eqn:E; cbn;
     unfold output_marked; cbn; rewrite ?app_nil_r;
     [ unfold is_file; by rewrite lookup_delete_eq
     | unfold is_file; by rewrite E
     | unfold is_file; by rewrite lookup_delete_eq ]).
Qed.

(** Once the archiver has started, the mark is there. *)
Lemma preserves_marked_tar_czf dir out member :
  preserves (output_marked out) (tar_czf T dir out member).
Proof.
  intros s Hs. unfold tar_czf, mbind, sh_mbind, sh_bind, command.
  assert (Hev : is_package out (TarCreate out dir member) = true)
    by (cbn; by apply bool_decide_eq_true).
  destruct (crash_in s) as [[| n] |]; [done | |];
    (destruct (creatable (fs s) out); cbn [fst snd crash_in fs trace fmap
                                           option_fmap option_map];
     [| intros _; eexists; split; [| exact Hev]; cbn;
        apply elem_of_app; right; apply list_elem_of_singleton; done]).
  - destruct n as [| n]; cbn.
    + intros _. eexists. split; [| exact Hev]. cbn.
      apply elem_of_app. right. by apply list_elem_of_singleton.
    + destruct (_ && _); cbn; intros _; (eexists; split; [| exact Hev]);
        cbn; rewrite app_nil_r; apply elem_of_app; right;
        by apply list_elem_of_singleton.
  - destruct (_ && _); cbn; intros _; (eexists; split; [| exact Hev]);
      cbn; rewrite app_nil_r; apply elem_of_app; right;
      by apply list_elem_of_singleton.
Qed.

Lemma preserves_marked_echo out l :
  preserves (output_marked out) (echo l).
Proof.
  eapply (acts_preserves_marked (λ _, False) (λ _, True)); [| tauto].
  by apply acts_echo.
Qed.

End OutputMarked.

Section ExtensionWhole.

Context (T : tools) (ROOT : string) (i : inputs).

Lemma build_extension_keeps_mark e :
  preserves (output_marked (OUT_TAR ROOT (ext_name e)))
    (build_extension T ROOT i e).
Proof.
  pose proof (out_not_in_build ROOT e) as Hb.
  pose proof (out_not_archive ROOT i e) as Ha.
  destruct e; unfold build_extension, build_xxhash, build_msgspec.
  - apply preserves_bind.
    { eapply acts_preserves_marked; [apply acts_prepare | exact Hb]. }
    intros [hdrs rt].
    apply preserves_bind; [| intros _].
    { eapply acts_preserves_marked; [apply acts_fetch | exact Ha]. }
    apply preserves_bind; [| intros _].
    { eapply acts_preserves_marked; [apply acts_verify | tauto]. }
    apply preserves_bind; [| intros _].
    { eapply acts_preserves_marked; [apply acts_unpack | exact Hb]. }
    apply preserves_bind; [| intros _].
    { eapply acts_preserves_marked;
        [apply acts_xxhash_copy_sources | exact Hb]. }
    apply preserves_bind; [| intros _].
    { eapply acts_preserves_marked;
        [apply acts_xxhash_compile_link | exact Hb]. }
    unfold xxhash_package.
    apply preserves_bind; [apply preserves_marked_echo | intros _].
    apply preserves_bind; [apply preserves_marked_rm_f | intros _].
    apply preserves_bind; [apply preserves_marked_tar_czf | intros _].
    apply preserves_marked_echo.
  - apply preserves_bind.
    { eapply acts_preserves_marked; [apply acts_prepare | exact Hb]. }
    intros [hdrs rt].
    apply preserves_bind; [| intros _].
    { eapply acts_preserves_marked; [apply acts_fetch | exact Ha]. }
    apply preserves_bind; [| intros _].
    { eapply acts_preserves_marked; [apply acts_verify | tauto]. }
    apply preserves_bind; [| intros _].
    { eapply acts_preserves_marked; [apply acts_unpack | exact Hb]. }
    apply preserves_bind; [| intros _].
    { eapply acts_preserves_marked;
        [apply acts_msgspec_copy_sources | exact Hb]. }
    apply preserves_bind; [| intros _].
    { eapply acts_preserves_marked;
        [apply acts_msgspec_compile_link | exact Hb]. }
    unfold msgspec_package.
    apply preserves_bind; [apply preserves_marked_echo | intros _].
    apply preserves_bind;
      [apply preserves_or_true, preserves_marked_rm_f | intros _].
    apply preserves_bind; [apply preserves_marked_tar_czf | intros _].
    apply preserves_marked_echo.
Qed.

Lemma acts_build_extension e :
  acts (λ _, True) (ext_event ROOT i e) (build_extension T ROOT i e).
Proof.
  destruct e; unfold build_extension, build_xxhash, build_msgspec.
  - apply acts_bind.
    { eapply acts_weaken; [| | apply acts_prepare]; [done |].
      unfold ext_event. tauto. }
    intros [hdrs rt].
    apply acts_bind; [| intros _].
    { eapply acts_weaken; [| | apply acts_fetch]; [done |].
      unfold ext_event. intros ev [H | ->]; auto. }
    apply acts_bind; [| intros _].
    { eapply acts_weaken; [| | apply acts_verify]; [done |].
      unfold ext_event. tauto. }
    apply acts_bind; [| intros _].
    { eapply acts_weaken; [| | apply acts_unpack]; [done |].
      unfold ext_event. tauto. }
    apply acts_bind; [| intros _].
    { eapply acts_weaken; [| | apply acts_xxhash_copy_sources]; [done |].
      unfold ext_event. tauto. }
    apply acts_bind; [| intros _].
    { eapply acts_weaken; [| | apply acts_xxhash_compile_link]; [done |].
      unfold ext_event. intros ev [H | [H | [ld H]]];
        [ by left | do 5 right; by left | do 6 right; left; eauto ]. }
    eapply acts_weaken; [| | apply acts_xxhash_package]; [done |].
    unfold ext_event. cbn [ext_name]. tauto.
  - apply acts_bind.
    { eapply acts_weaken; [| | apply acts_prepare]; [done |].
      unfold ext_event. tauto. }
    intros [hdrs rt].
    apply acts_bind; [| intros _].
    { eapply acts_weaken; [| | apply acts_fetch]; [done |].
      unfold ext_event. intros ev [H | ->]; auto. }
    apply acts_bind; [| intros _].
    { eapply acts_weaken; [| | apply acts_verify]; [done |].
      unfold ext_event. tauto. }
    apply acts_bind; [| intros _].
    { eapply acts_weaken; [| | apply acts_unpack]; [done |].
      unfold ext_event. tauto. }
    apply acts_bind; [| intros _].
    { eapply acts_weaken; [| | apply acts_msgspec_copy_sources]; [done |].
      unfold ext_event. tauto. }
    apply acts_bind; [| intros _].
    { eapply acts_weaken; [| | apply acts_msgspec_compile_link]; [done |].
      unfold ext_event. intros ev [H | [H | [ld H]]];
        [ by left | do 5 right; by left | do 6 right; left; eauto ]. }
    eapply acts_weaken; [| | apply acts_msgspec_package]; [done |].
    unfold ext_event. cbn [ext_name]. tauto.
Qed.

End ExtensionWhole.

(** C1, as the code has it.  An extension stage that starts without its
    tarball writes the tarball's final path in its packaging step only:
    wherever the stage stops (it ends, it fails, or the machine stops after
    any number of commands), a regular file is at the final path only if
    the archiver had been started on that path.  The archiver itself
    writes the final path directly. *)
Theorem output_written_by_packaging_only
    (T : tools) (ROOT : string) (i : inputs) (e : extension)
    (f : filesys) (budget : option nat) :
  is_file f (OUT_TAR ROOT (ext_name e)) = false →
  let s' := (build_extension T ROOT i e (boot f budget)).2 in
  is_file (fs s') (OUT_TAR ROOT (ext_name e)) = true →
  ∃ ev, ev ∈ trace s' ∧ is_package (OUT_TAR ROOT (ext_name e)) ev = true.
Proof.
  intros Hf s'. apply (build_extension_keeps_mark T ROOT i e (boot f budget)).
  unfold output_marked. cbn. by rewrite Hf.
Qed.

(** C6, as the code has it.  Whatever an extension build does, each link
    step it starts is the stage's own link command, and that command
    passes [--no-entry --shared --export-dynamic --allow-undefined]: the
    module's symbols are exported by visibility.  The xxhash link names
    its entry symbol in addition. *)
Theorem link_exports_dynamic
    (T : tools) (ROOT : string) (i : inputs) (e : extension)
    (f : filesys) (budget : option nat) (ld : string) (argv : list string) :
  WasmLd ld argv ∈ trace (build_extension T ROOT i e (boot f budget)).2 →
  (∃ RT_DIR, argv = link_argv ROOT e RT_DIR)
  ∧ take 4 argv
    = ["--no-entry"; "--shared"; "--export-dynamic"; "--allow-undefined"]
  ∧ (e = Xxhash → argv !! 4 = Some ("--export=" +:+ entry_symbol e)).
Proof.
  intros Hin.
  destruct (acts_build_extension T ROOT i e (boot f budget))
    as (_ & (evs & E & F) & _).
  rewrite E in Hin. cbn in Hin.
  rewrite Forall_forall in F. specialize (F _ Hin).
  unfold ext_event in F.
  destruct F as [F | [F | [F | [F | [F | [F | [F | F]]]]]]];
    try discriminate F.
  destruct F as (ld' & rt & [= -> ->]).
  split; [by exists rt |]. split; [by destruct e |].
  by intros ->.
Qed.

(** ** Running the first steps of an extension build *)

Section MkdirFacts.

Lemma dir_prefixes_shorter pre rest a :
  a ∈ Path.dir_prefixes pre rest →
  String.length a < String.length pre + String.length rest.
Proof.
  revert pre. induction rest as [| c rest IH]; intros pre Ha; simpl in Ha.
  - by apply elem_of_nil in Ha.
  - assert (a ∈ Path.dir_prefixes (pre +:+ String c "") rest →
            String.length a < String.length pre + String.length (String c rest))
      as Htail.
    { intros H. apply IH in H. rewrite length_append in H. simpl in *. lia. }
    destruct (Ascii.eqb c "/"); [| by apply Htail].
    destruct (String.eqb pre ""); [by apply Htail |].
    apply elem_of_cons in Ha as [-> | Ha]; [simpl; lia | by apply Htail].
Qed.

Lemma mkdirs_lookup_other ps (f : filesys) p :
  p ∉ ps → (mkdirs ps f).2 !! p = f !! p.
Proof.
  revert f. induction ps as [| q ps IH]; intros f Hp; simpl; [done |].
  apply not_elem_of_cons in Hp as [Hne Hp].
  destruct (f !! q) as [[c x |] |] eqn:Hq; [done | by apply IH |].
  rewrite IH by done. by rewrite lookup_insert_ne.
Qed.

Lemma mkdir_all_lookup_longer ps (f : filesys) p :
  (∀ q, q ∈ ps → String.length q < String.length p) →
  (mkdir_all ps f).2 !! p = f !! p.
Proof.
  revert f. induction ps as [| q ps IH]; intros f Hlen; simpl; [done |].
  assert ((mkdir_p1 q f).2 !! p = f !! p) as E1.
  { unfold mkdir_p1. apply mkdirs_lookup_other. intros Hin.
    assert (String.length q < String.length p) as Hq
      by (apply Hlen; by left).
    apply elem_of_app in Hin as [Hin | Hin].
    - apply dir_prefixes_shorter in Hin. simpl in Hin. lia.
    - apply list_elem_of_singleton in Hin as ->. lia. }
  destruct (mkdir_p1 q f) as [ok f1]. simpl in E1.
  specialize (IH f1). destruct (mkdir_all ps f1) as [ok' f2]. simpl in *.
  rewrite IH; [done |]. intros q' Hq'. apply Hlen. by right.
Qed.

Lemma mkdir_all_file_at ps (f : filesys) p :
  file_at (mkdir_all ps f).2 p = file_at f p.
Proof.
  destruct (keeps_mkdir_all (λ _, False) ps f p) as [E _]; [tauto | done].
Qed.

Lemma mkdir_all_is_file ps (f : filesys) p :
  is_file (mkdir_all ps f).2 p = is_file f p.
Proof. by rewrite !is_file_file_at, mkdir_all_file_at. Qed.

End MkdirFacts.

Section FirstSteps.

Context (T : tools) (ROOT : string).

Local Arguments mkdir_all : simpl never.
Local Arguments is_file : simpl never.
Local Arguments is_dir : simpl never.
Local Arguments is_executable : simpl never.

Lemma prepare_cache_hit name f t :
  is_file f (OUT_TAR ROOT name) = true →
  prepare T ROOT name (State f t None)
  = (Halt 0, State (mkdir_all [TOOL_DIR ROOT] f).2
               (t ++ [Echo (cache_hit_line ROOT name)]) None).
Proof.
  intros Hf. unfold prepare, mbind, sh_mbind, sh_bind, or_true, mkdir_p,
    command, test, say, echo, exit. cbn.
  pose proof (mkdir_all_is_file [TOOL_DIR ROOT] f (OUT_TAR ROOT name)) as E.
  destruct (mkdir_all [TOOL_DIR ROOT] f) as [ok f1]. cbn in *.
  rewrite Hf in E. destruct ok; cbn; rewrite E; cbn; by rewrite app_nil_r.
Qed.

Lemma prepare_missing_prerequisite name f t :
  is_file f (OUT_TAR ROOT name) = false →
  is_dir f (PY_HEADERS_312_DIR ROOT) = false →
  prepare T ROOT name (State f t None)
  = (Halt 1,
     State (mkdir_all [TOOL_DIR ROOT] f).2
       (t ++ [Echo ("[" +:+ name +:+ "] Error: "
                    +:+ (if is_executable f (WASI_SDK ROOT </> "bin/clang")
                         then "Python 3.12 headers" else "WASI SDK")
                    +:+ " not found; run build_cpython.sh first")])
       None).
Proof.
  intros Hf Hd. unfold prepare, check_prerequisites, mbind, sh_mbind,
    sh_bind, or_true, mkdir_p, command, test, say, echo, exit. cbn.
  pose proof (mkdir_all_is_file [TOOL_DIR ROOT] f (OUT_TAR ROOT name)) as E.
  assert (is_dir (mkdir_all [TOOL_DIR ROOT] f).2 (PY_HEADERS_312_DIR ROOT)
          = false) as D.
  { unfold is_dir in *. rewrite mkdir_all_lookup_longer; [done |].
    intros q Hq. apply list_elem_of_singleton in Hq as ->.
    unfold PY_HEADERS_312_DIR, Path.join. rewrite !length_append.
    simpl. lia. }
  assert (is_executable (mkdir_all [TOOL_DIR ROOT] f).2
            (WASI_SDK ROOT </> "bin/clang")
          = is_executable f (WASI_SDK ROOT </> "bin/clang")) as X.
  { unfold is_executable. rewrite mkdir_all_lookup_longer; [done |].
    intros q Hq. apply list_elem_of_singleton in Hq as ->.
    unfold WASI_SDK, WASI_DIR, Path.join. rewrite !length_append.
    simpl. lia. }
  destruct (mkdir_all [TOOL_DIR ROOT] f) as [ok f1]. cbn in *.
  rewrite Hf in E. rewrite <- X.
  destruct (is_executable f1 (WASI_SDK ROOT </> "bin/clang")) eqn:X1.
  - destruct ok; cbn; rewrite E; cbn; rewrite X1; cbn; rewrite D; cbn;
      by rewrite app_nil_r.
  - destruct ok; cbn; rewrite E; cbn; rewrite X1; cbn;
      by rewrite app_nil_r.
Qed.

End FirstSteps.

Section BindFacts.


Lemma bind_halt {A B} (c : sh A) (k : A → sh B) s n s1 :
  c s = (Halt n, s1) → (c ≫= k) s = (Halt n, s1).
Proof. intros E. unfold mbind, sh_mbind, sh_bind. by rewrite E. Qed.



End BindFacts.

Lemma build_extension_prepare (T : tools) (ROOT : string) (i : inputs)
    (e : extension) :
  ∃ k, build_extension T ROOT i e = prepare T ROOT (ext_name e) ≫= k.
Proof. destruct e; eexists; reflexivity. Qed.

(** ** Cache hits *)

(** C4.  An extension stage that finds its tarball leaves with [exit 0]
    after printing the cache-hit line and nothing else: no download, no
    run of the compiler, no link step.  Every regular file, the tarball
    among them, is what it was. *)
Theorem cache_hit_skips_stage
    (T : tools) (ROOT : string) (i : inputs) (e : extension) (f : filesys) :
  is_file f (OUT_TAR ROOT (ext_name e)) = true →
  let r := build_extension T ROOT i e (boot f None) in
  r.1 = Halt 0
  ∧ trace r.2 = [Echo (cache_hit_line ROOT (ext_name e))]
  ∧ Forall (λ ev, is_network ev = false ∧ is_compiler_run ev = false
                  ∧ is_link ev = false) (trace r.2)
  ∧ file_at (fs r.2) (OUT_TAR ROOT (ext_name e))
    = file_at f (OUT_TAR ROOT (ext_name e))
  ∧ ∀ p, file_at (fs r.2) p = file_at f p.
Proof.
  intros Hf r. subst r.
  destruct (build_extension_prepare T ROOT i e) as [k ->].
  unfold boot. erewrite bind_halt; [| by apply prepare_cache_hit].
  cbn [fst snd fs trace app].
  split; [done |]. split; [done |].
  split; [by repeat constructor |].
  split; apply mkdir_all_file_at.
Qed.

Lemma cache_hit_skips_stage_witness :
  let r := build_extension Toy.world Toy.ROOT Toy.inputs Xxhash
             (boot Toy.with_xxhash_tarball None) in
  r.1 = Halt 0
  ∧ trace r.2 = [Echo (cache_hit_line Toy.ROOT "xxhash")]
  ∧ Forall (λ ev, is_network ev = false ∧ is_compiler_run ev = false
                  ∧ is_link ev = false) (trace r.2)
  ∧ file_at (fs r.2) (OUT_TAR Toy.ROOT "xxhash")
    = file_at Toy.with_xxhash_tarball (OUT_TAR Toy.ROOT "xxhash")
  ∧ ∀ p, file_at (fs r.2) p = file_at Toy.with_xxhash_tarball p.
Proof.
  apply (cache_hit_skips_stage Toy.world Toy.ROOT Toy.inputs Xxhash
           Toy.with_xxhash_tarball).
  vm_compute. reflexivity.
Defined.

(** ** The prerequisite gate *)

(** C7, as the code has it.  An extension stage that is not skipped by
    its cache check and finds no runtime header directory leaves with
    [exit 1] before it starts the compiler in any way.  The one line it
    prints names the missing prerequisite, the WASI SDK when the compiler
    is not executable and the Python 3.12 headers otherwise, and tells to
    run [build_cpython.sh] first. *)
Theorem missing_headers_stop_stage
    (T : tools) (ROOT : string) (i : inputs) (e : extension) (f : filesys) :
  is_file f (OUT_TAR ROOT (ext_name e)) = false →
  is_dir f (PY_HEADERS_312_DIR ROOT) = false →
  let r := build_extension T ROOT i e (boot f None) in
  let what := if is_executable f (WASI_SDK ROOT </> "bin/clang")
              then "Python 3.12 headers" else "WASI SDK" in
  r.1 = Halt 1
  ∧ trace r.2
    = [Echo ("[" +:+ ext_name e +:+ "] Error: " +:+ what
             +:+ " not found; run build_cpython.sh first")]
  ∧ Forall (λ ev, is_compiler_run ev = false ∧ is_link ev = false)
      (trace r.2).
Proof.
  intros Hf Hd r what. subst r what.
  destruct (build_extension_prepare T ROOT i e) as [k ->].
  pose proof (prepare_missing_prerequisite T ROOT (ext_name e) f [] Hf Hd)
    as E.
  unfold boot. erewrite bind_halt; [| exact E].
  cbn [fst snd fs trace app].
  split; [done |]. split; [done |]. by repeat constructor.
Qed.

Lemma missing_headers_stop_stage_witness :
  let r := build_extension Toy.world Toy.ROOT Toy.inputs Msgspec
             (boot Toy.no_headers None) in
  let what := if is_executable Toy.no_headers
                   (WASI_SDK Toy.ROOT </> "bin/clang")
              then "Python 3.12 headers" else "WASI SDK" in
  r.1 = Halt 1
  ∧ trace r.2
    = [Echo ("[" +:+ ext_name Msgspec +:+ "] Error: " +:+ what
             +:+ " not found; run build_cpython.sh first")]
  ∧ Forall (λ ev, is_compiler_run ev = false ∧ is_link ev = false)
      (trace r.2).
Proof.
  apply (missing_headers_stop_stage Toy.world Toy.ROOT Toy.inputs Msgspec
           Toy.no_headers); vm_compute; reflexivity.
Defined.

(** C7 as stated fails: with the stage's tarball in the cache, the stage
    does not fail when the runtime headers are gone; it reports a cache
    hit and succeeds. *)
Lemma missing_headers_counterexample :
  is_dir Toy.tarball_but_no_headers (PY_HEADERS_312_DIR Toy.ROOT) = false
  ∧ let r := build_extension Toy.world Toy.ROOT Toy.inputs Xxhash
               (boot Toy.tarball_but_no_headers None) in
    r.1 = Halt 0
    ∧ succeeded r.1 = true
    ∧ trace r.2 = [Echo (cache_hit_line Toy.ROOT "xxhash")].
Proof. vm_compute. repeat split. Qed.

(** ** Examples for the packaging and link steps *)

Lemma output_written_by_packaging_only_witness :
  let s' := (build_extension Toy.world Toy.ROOT Toy.inputs Xxhash
               (boot Toy.provisioned (Some 23))).2 in
  ∃ ev, ev ∈ trace s' ∧ is_package (OUT_TAR Toy.ROOT "xxhash") ev = true.
Proof.
  apply (output_written_by_packaging_only Toy.world Toy.ROOT Toy.inputs
           Xxhash Toy.provisioned (Some 23)); vm_compute; reflexivity.
Defined.

(** C1 as stated fails.  The machine stops while [tar -czf] is writing:
    the archiver has opened the final path and written nothing yet.  The
    final path then holds a regular file that is not the tarball a full
    run produces, and the next run takes it for a cache hit and keeps
    it. *)
Lemma atomic_output_counterexample :
  let out := OUT_TAR Toy.ROOT "xxhash" in
  let run := build_extension Toy.world Toy.ROOT Toy.inputs Xxhash in
  let stopped := run (boot Toy.provisioned (Some 23)) in
  let complete := run (boot Toy.provisioned None) in
  let rerun := run (boot (fs stopped.2) None) in
  is_file Toy.provisioned out = false
  ∧ stopped.1 = Crash
  ∧ file_at (fs stopped.2) out = Some ("", false)
  ∧ complete.1 = Ret ()
  ∧ file_at (fs complete.2) out ≠ file_at (fs stopped.2) out
  ∧ rerun.1 = Halt 0
  ∧ trace rerun.2 = [Echo (cache_hit_line Toy.ROOT "xxhash")]
  ∧ file_at (fs rerun.2) out = Some ("", false).
Proof. vm_compute. repeat split. discriminate. Qed.

Lemma link_exports_dynamic_witness :
  let argv := link_argv Toy.ROOT Xxhash "/res/lib/wasm32-unknown-wasi" in
  (∃ RT_DIR, argv = link_argv Toy.ROOT Xxhash RT_DIR)
  ∧ take 4 argv
    = ["--no-entry"; "--shared"; "--export-dynamic"; "--allow-undefined"]
  ∧ (Xxhash = Xxhash →
     argv !! 4 = Some ("--export=" +:+ entry_symbol Xxhash)).
Proof.
  apply (link_exports_dynamic Toy.world Toy.ROOT Toy.inputs Xxhash
           Toy.provisioned None "/r/_tooling/wasi-sdk-27.0/bin/wasm-ld").
  apply (bool_decide_unpack _). vm_compute. exact I.
Defined.

(** C6 as stated fails: the msgspec build links its module without
    naming the entry symbol; its link command has no [--export=] argument
    at all. *)
Lemma link_export_counterexample :
  let r := build_extension Toy.world Toy.ROOT Toy.inputs Msgspec
             (boot Toy.provisioned None) in
  let argv := link_argv Toy.ROOT Msgspec "/res/lib/wasm32-unknown-wasi" in
  r.1 = Ret ()
  ∧ WasmLd "/r/_tooling/wasi-sdk-27.0/bin/wasm-ld" argv ∈ trace r.2
  ∧ (("--export=" +:+ entry_symbol Msgspec) ∉ argv)
  ∧ filter (λ a, String.prefix "--export=" a = true) argv = [].
Proof.
  split; [vm_compute; reflexivity |]. split; [| split].
  - apply (bool_decide_unpack _). vm_compute. exact I.
  - apply (bool_decide_eq_false_1 _). vm_compute. reflexivity.
  - vm_compute. reflexivity.
Qed.

(** ** The stand-in checksum tool

    The tool of the examples does what the pipeline relies on. *)

Section ToyChecker.

Local Arguments String.append !_ _ / : simpl nomatch.

Lemma span_hex_sum (sum rest : string) :
  Sums.all_hex sum = true →
  Toy.span_hex (sum +:+ String " " rest) = (sum, String " " rest).
Proof.
  induction sum as [| c sum IH]; cbn; [done |].
  intros [Hc Hs]%andb_true_iff. rewrite Hc. by rewrite (IH Hs).
Qed.

Lemma skip_blanks_hex (l : string) :
  match l with
  | String c _ => Sums.is_hex c = true
  | EmptyString => True
  end →
  Toy.skip_blanks l = l.
Proof.
  destruct l as [| c l]; [done |]. cbn. intros Hc.
  assert (Toy.is_blank c = false) as ->; [| done].
  unfold Toy.is_blank. apply orb_false_iff.
  split; apply Ascii.eqb_neq; intros ->; done.
Qed.

(** A line of the checksum file format is read as it is written. *)
Lemma parse_listed (sum name : string) :
  String.length sum = 64 → Sums.all_hex sum = true → name ≠ "" →
  Toy.parse_line (sum +:+ "  " +:+ name) = Some (sum, name).
Proof.
  intros Hlen Hhex Hname. unfold Toy.parse_line.
  rewrite skip_blanks_hex.
  2:{ destruct sum as [| c sum]; [done |]. cbn in Hhex |- *.
      by apply andb_true_iff in Hhex as [? _]. }
  change (sum +:+ "  " +:+ name) with (sum +:+ String " " (String " " name)).
  rewrite (span_hex_sum sum (String " " name) Hhex).
  rewrite Hlen. cbn.
  destruct (String.eqb_spec name ""); done.
Qed.

Lemma listed_entry (text sum name : string) :
  Sums.listed text sum name → name ≠ "" →
  (sum, name) ∈ Toy.entries text.
Proof.
  intros (Hlen & Hhex & Hin) Hname. unfold Toy.entries.
  apply list_elem_of_omap. exists (sum +:+ "  " +:+ name). split.
  - apply list_elem_of_filter. split; [| done].
    apply not_true_is_false. intros [r E]%prefix_elim.
    destruct sum as [| c sum]; [done |]. injection E as -> _.
    cbn in Hhex. done.
  - by apply parse_listed.
Qed.

Lemma toy_rejects_mismatch : rejects_mismatch Toy.world.
Proof.
  intros flag cwd sums f text sum name bytes _ Hread Hl Hrel Hfile Hbad.
  assert (name ≠ "") as Hname.
  { intros ->. done. }
  pose proof (listed_entry text sum name Hl Hname) as Hin.
  cbn [shasum Toy.world]. unfold Toy.toy_shasum. rewrite Hread.
  assert (forallb (λ r, match r with
                        | Toy.Verified => true
                        | Toy.Mismatch | Toy.Unreadable => false
                        | Toy.Missing => flag
                        end) (Toy.check_entry cwd f <$> Toy.entries text)
          = false) as ->.
  { apply not_true_is_false. intros Hall.
    rewrite forallb_forall in Hall.
    specialize (Hall (Toy.check_entry cwd f (sum, name))).
    assert (Toy.check_entry cwd f (sum, name) = Toy.Mismatch) as E.
    { unfold Toy.check_entry. cbn [fst snd]. unfold read_file in Hfile.
      destruct (f !! (cwd </> name)) as [[c x |] |]; try done.
      injection Hfile as ->.
      destruct (String.eqb_spec (Sums.lc sum) (Toy.toy_digest 64 bytes));
        [| done].
      by destruct Hbad. }
    rewrite E in Hall. enough (false = true) by done. apply Hall.
    apply list_elem_of_In, list_elem_of_fmap. by exists (sum, name). }
  by rewrite andb_false_r.
Qed.

End ToyChecker.

(** ** The two idioms *)

(** Each listed event is of one of the kinds asked for. *)
Ltac events :=
  repeat first [ apply Forall_nil_2 | apply Forall_cons_2 ];
  first [ by left | right; by split | by right | done ].

Section Idioms.

Context (T : tools) (ROOT : string).

Local Arguments is_file : simpl never.
Local Arguments is_dir : simpl never.
Local Arguments file_at : simpl never.
Local Arguments read_file : simpl never.
Local Arguments creatable : simpl never.

Lemma is_file_true (f : filesys) p :
  is_file f p = true → ∃ bytes x, file_at f p = Some (bytes, x).
Proof.
  rewrite is_file_file_at. destruct (file_at f p) as [[b x] |]; [| done].
  eauto.
Qed.

Lemma is_file_false (f : filesys) p :
  is_file f p = false → file_at f p = None.
Proof. rewrite is_file_file_at. by destruct (file_at f p). Qed.

Lemma file_at_insert_eq (f : filesys) p c x :
  file_at (<[p := File c x]> f) p = Some (c, x).
Proof. unfold file_at. by rewrite lookup_insert_eq. Qed.

(** The download idiom: when it returns, the archive is there, either
    the cached one or the one fetched; the network is used only when
    nothing is cached. *)
Lemma fetch_outcome file url m1 m2 s :
  let r := fetch_unless_cached T file url m1 m2 s in
  (∀ n, r.1 ≠ Halt n)
  ∧ (r.1 = Ret () →
     ∃ bytes x,
       file_at (fs r.2) file = Some (bytes, x)
       ∧ (file_at (fs s) file = Some (bytes, x)
          ∨ (file_at (fs s) file = None ∧ http_get T url = Body bytes)))
  ∧ ∃ evs, trace r.2 = trace s ++ evs
           ∧ Forall (λ ev, is_echo ev = true
                           ∨ (ev = Curl url file
                              ∧ file_at (fs s) file = None)) evs.
Proof.
  unfold fetch_unless_cached, mbind, sh_mbind, sh_bind, test, echo,
    curl_fL_o, command. cbn.
  destruct (is_file (fs s) file) eqn:Hc; cbn.
  - apply is_file_true in Hc as (bytes & x & Hc).
    destruct (crash_in s) as [[| n] |]; cbn;
      (split; [done |]); (split; [try done; intros _; eauto |]);
      first [ exists []; rewrite app_nil_r; by split
            | eexists; split; [done |]; events ].
  - apply is_file_false in Hc.
    destruct (crash_in s) as [[| [| n]] |]; cbn;
      try (split; [done |]; split; [done |];
           first [ exists []; rewrite app_nil_r; by split
                 | eexists; split; [done |]; events ]);
      (destruct (creatable (fs s) file); cbn;
       [ destruct (http_get T url) as [b | [part |]]; cbn | ];
       (split; [done |]);
       (split; [ try done; intros _; exists b, false;
                 rewrite file_at_insert_eq; auto |]);
       eexists; (split; [by rewrite <- app_assoc |]); events).
Qed.

(** The verification idiom: it changes no file, and it returns only
    when the check passes. *)
Lemma verify_outcome line sums flag s :
  let r := verify_checksums T ROOT line sums flag s in
  (∀ n, r.1 ≠ Halt n)
  ∧ fs r.2 = fs s
  ∧ (r.1 = Ret () →
     is_dir (fs s) (TOOL_DIR ROOT) = true
     ∧ shasum T flag (TOOL_DIR ROOT) sums (fs s) = 0)
  ∧ ∃ evs, trace r.2 = trace s ++ evs
           ∧ Forall (λ ev, is_echo ev = true
                           ∨ ev = ShasumCheck sums flag) evs.
Proof.
  unfold verify_checksums, shasum_c, mbind, sh_mbind, sh_bind, test, echo,
    fail, command, status_outcome. cbn.
  destruct (crash_in s) as [[| [| n]] |]; cbn;
    repeat (case_match; simplify_eq; cbn);
    (split; [done |]); (split; [done |]);
    (split; [ try done; intros _; eauto |]);
    first [ exists []; rewrite app_nil_r; by split
          | eexists; (split; [by rewrite <- ?app_assoc |]); events ].
Qed.

End Idioms.

(** ** The integrity gate *)

Section Gate.

Context (T : tools) (ROOT : string).

Local Arguments file_at : simpl never.
Local Arguments read_file : simpl never.

Lemma acts_fetch_unless_cached file url m1 m2 :
  acts (λ p, p = file) (λ _, True) (fetch_unless_cached T file url m1 m2).
Proof. unfold fetch_unless_cached. repeat acts_step; auto. Qed.

Lemma bind_failed {A B} (c : sh A) (k : A → sh B) s :
  succeeded (c s).1 = false →
  succeeded ((c ≫= k) s).1 = false ∧ ((c ≫= k) s).2 = (c s).2.
Proof.
  unfold mbind, sh_mbind, sh_bind.
  by destruct (c s) as [[a | n | n |] s1].
Qed.

(** Fetch, verify, and whatever follows: when the checksum file lists
    the archive with a digest that its bytes do not have, what follows
    is never reached. *)
Lemma gate {A} (rest : sh A) file url m1 m2 line sums flag name
    s bytes text sum :
  rejects_mismatch T →
  Sums.relative name = true →
  TOOL_DIR ROOT </> name = file →
  sums ≠ file →
  ((∃ x, file_at (fs s) file = Some (bytes, x))
   ∨ (file_at (fs s) file = None ∧ http_get T url = Body bytes)) →
  read_file (fs s) sums = Some text →
  Sums.listed text sum name →
  Sums.lc sum ≠ digest T 64 bytes →
  let r := (fetch_unless_cached T file url m1 m2 ;;
            verify_checksums T ROOT line sums flag ;;
            rest) s in
  succeeded r.1 = false
  ∧ ∃ evs, trace r.2 = trace s ++ evs
           ∧ Forall (λ ev, is_echo ev = true
                           ∨ ev = ShasumCheck sums flag
                           ∨ (ev = Curl url file
                              ∧ file_at (fs s) file = None)) evs.
Proof.
  intros Hsound Hrel Hres Hne Hbytes Hsums Hin Hbad.
  destruct (fetch_outcome T file url m1 m2 s) as (HF1 & HF2 & evs1 & E1 & F1).
  destruct (acts_fetch_unless_cached file url m1 m2 s) as (K & _ & _).
  destruct (verify_outcome T ROOT line sums flag
              (fetch_unless_cached T file url m1 m2 s).2)
    as (HV1 & HV2 & HV3 & evs2 & E2 & F2).
  cbv zeta. unfold mbind, sh_mbind, sh_bind.
  destruct (fetch_unless_cached T file url m1 m2 s) as [o1 s1].
  cbn [fst snd] in *.
  assert (Forall (λ ev, is_echo ev = true ∨ ev = ShasumCheck sums flag
                        ∨ (ev = Curl url file
                           ∧ file_at (fs s) file = None)) evs1) as F1'.
  { eapply Forall_impl; [exact F1 |]. intros ev [H | H]; auto. }
  destruct o1 as [[] | n | n |]; cbn [fst snd]; try (split; [done |]; eauto).
  2:{ by destruct (HF1 n). }
  destruct (HF2 eq_refl) as (b & x & Hb & Hfrom).
  assert (b = bytes) as ->.
  { destruct Hbytes as [[x' Hx] | [Hn Hg]], Hfrom as [H' | [H' Hg']];
      congruence. }
  destruct (verify_checksums T ROOT line sums flag s1) as [o2 s2].
  cbn [fst snd] in *.
  assert (∃ evs, trace s2 = trace s ++ evs
                 ∧ Forall (λ ev, is_echo ev = true
                                 ∨ ev = ShasumCheck sums flag
                                 ∨ (ev = Curl url file
                                    ∧ file_at (fs s) file = None)) evs)
    as Htrace.
  { exists (evs1 ++ evs2). rewrite E2, E1, app_assoc. split; [done |].
    apply Forall_app. split; [done |].
    eapply Forall_impl; [exact F2 |]. intros ev [H | H]; auto. }
  destruct o2 as [[] | n | n |]; cbn [fst snd]; try (split; [done |]; done).
  2:{ by destruct (HV1 n). }
  exfalso. destruct (HV3 eq_refl) as (Hdir & Hc).
  assert (read_file (fs s1) sums = Some text) as Hr'.
  { rewrite read_file_file_at. destruct (K sums Hne) as [-> _].
    by rewrite <- read_file_file_at. }
  apply (Hsound flag (TOOL_DIR ROOT) sums (fs s1) text sum name bytes);
    try done.
  rewrite Hres, read_file_file_at, Hb. done.
Qed.

End Gate.

Section StageGate.

Context (T : tools) (ROOT : string) (i : inputs).

Local Arguments file_at : simpl never.
Local Arguments read_file : simpl never.
Local Arguments is_file : simpl never.
Local Arguments is_dir : simpl never.
Local Arguments is_executable : simpl never.
Local Arguments mkdir_all : simpl never.
Local Arguments remove_tree : simpl never.




End StageGate.

Section StageGateProof.

Context (T : tools) (ROOT : string) (i : inputs).
Hypothesis Hsound : rejects_mismatch T.

Local Arguments file_at : simpl never.
Local Arguments read_file : simpl never.
Local Arguments is_file : simpl never.
Local Arguments is_dir : simpl never.
Local Arguments mkdir_all : simpl never.

Lemma acts_detect_platform os m :
  acts (λ _, False) (λ ev, is_echo ev = true) (detect_platform ROOT os m).
Proof. unfold detect_platform. repeat acts_step; done. Qed.

Lemma detect_platform_outcome os m s :
  let r := detect_platform ROOT os m s in
  (∀ P, r.1 = Ret P → Platform.detect os m = Platform.Tag P)
  ∧ (∀ n, r.1 = Halt n → n = 1).
Proof.
  unfold detect_platform, mbind, sh_mbind, sh_bind, mkdir_p, echo, command,
    exit. cbn.
  destruct (Platform.detect os m) as [P | msg];
    repeat (case_match; simplify_eq; cbn in *; try done);
    split; intros; simplify_eq; done.
Qed.




Lemma cross_build_runtime_skipped rt s :
  is_dir (fs s) (HEADERS_OUT ROOT) = true →
  cross_build_runtime T ROOT rt s = (Ret (), s).
Proof.
  intros H. unfold cross_build_runtime.
  unfold mbind at 1, sh_mbind at 1, sh_bind at 1, test. cbn [fst snd].
  by rewrite H.
Qed.





End StageGateProof.



(** ** Runs on a machine that keeps running *)

Section Runs.

Context (T : tools) (ROOT : string).

Local Arguments file_at : simpl never.
Local Arguments read_file : simpl never.
Local Arguments is_file : simpl never.
Local Arguments is_dir : simpl never.
Local Arguments is_executable : simpl never.
Local Arguments creatable : simpl never.
Local Arguments mkdir_all : simpl never.
Local Arguments remove_tree : simpl never.






Lemma extract_sdk_skipped P s :
  is_dir (fs s) (WASI_DIR ROOT) = true →
  extract_sdk T ROOT P s
  = echo ("[wasi-sdk] Using existing " +:+ WASI_DIR ROOT) s.
Proof.
  intros H. unfold extract_sdk.
  unfold mbind at 1, sh_mbind at 1, sh_bind at 1, test. cbn [fst snd].
  by rewrite H.
Qed.

End Runs.

Section CachedArchive.

Context (T : tools) (ROOT : string) (i : inputs).
Hypothesis Hsound : rejects_mismatch T.

Local Arguments file_at : simpl never.
Local Arguments read_file : simpl never.
Local Arguments is_file : simpl never.
Local Arguments is_dir : simpl never.




End CachedArchive.



(** ** The toolchain stage on a rerun *)

Section Provisioner.

Context (T : tools) (ROOT : string).

Local Arguments file_at : simpl never.
Local Arguments read_file : simpl never.
Local Arguments is_file : simpl never.
Local Arguments is_dir : simpl never.

Lemma acts_locate_compiler :
  acts (λ _, False) (λ ev, is_echo ev = true ∨ is_query ev = true)
       (locate_compiler T ROOT).
Proof.
  unfold locate_compiler.
  repeat acts_step; try (left; reflexivity); right; reflexivity.
Qed.





End Provisioner.




(** ** An extension build stays in its workspace *)

Section ExtensionWorkspace.

Context (T : tools) (ROOT : string) (i : inputs).



End ExtensionWorkspace.



(** ** No work on an archive before its check *)

Section WorkAfterCheck.

Context (T : tools) (ROOT : string) (i : inputs).

Local Arguments file_at : simpl never.
Local Arguments read_file : simpl never.
Local Arguments is_file : simpl never.
Local Arguments is_dir : simpl never.

(** A verification that returns has printed its line and run the
    check, and nothing else. *)
Lemma verify_ret_trace line sums flag s u :
  (verify_checksums T ROOT line sums flag s).1 = Ret u →
  trace (verify_checksums T ROOT line sums flag s).2
  = trace s ++ [Echo line; ShasumCheck sums flag].
Proof.
  unfold verify_checksums, shasum_c, mbind, sh_mbind, sh_bind, test, echo,
    fail, command. cbn.
  destruct (crash_in s) as [[| [| n]] |]; cbn;
    repeat (case_match; simplify_eq; cbn); try done;
    intros _; by rewrite <- app_assoc.
Qed.

(** The shape of an extension build again, with what the part after
    the verification may do. *)
Lemma build_extension_parts e :
  ∃ m1 m2 line (rest : string * string → sh unit),
    (∀ hr, acts (λ _, True) (λ _, True) (rest hr))
    ∧ ∀ s,
        build_extension T ROOT i e s
        = match prepare T ROOT (ext_name e) s with
          | (Ret hr, s1) =>
              (fetch_unless_cached T (archive_file ROOT i (Extension e))
                 (archive_url i (Extension e)) m1 m2 ;;
               verify_checksums T ROOT line (sumfile ROOT (Extension e))
                 false ;;
               rest hr) s1
          | (Err n, s1) => (Err n, s1)
          | (Halt n, s1) => (Halt n, s1)
          | (Crash, s1) => (Crash, s1)
          end.
Proof.
  destruct e.
  - do 3 eexists.
    exists (λ hr, unpack T ROOT "xxhash" (XXHASH_VER (XXHASH_VER_env i))
                    (xxhash_ARCHIVE_FILE ROOT (XXHASH_VER_env i)) ;;
                  xxhash_copy_sources ROOT (XXHASH_VER_env i) ;;
                  xxhash_compile_link T ROOT (XXHASH_VER_env i) hr.1 hr.2 ;;
                  xxhash_package T ROOT).
    split.
    + intros hr.
      apply acts_bind; [| intros _].
      { eapply acts_weaken; [| | apply acts_unpack]; done. }
      apply acts_bind; [| intros _].
      { eapply acts_weaken; [| | apply acts_xxhash_copy_sources]; done. }
      apply acts_bind; [| intros _].
      { eapply acts_weaken; [| | apply (acts_xxhash_compile_link T ROOT)];
          done. }
      eapply acts_weaken; [| | apply acts_xxhash_package]; done.
    + intros s. unfold build_extension, build_xxhash.
      unfold mbind at 1, sh_mbind at 1, sh_bind at 1. cbn [ext_name].
      destruct (prepare T ROOT "xxhash" s) as [[[h r] | n | n |] s1];
        reflexivity.
  - do 3 eexists.
    exists (λ hr, unpack T ROOT "msgspec" (MSGSPEC_VER (MSGSPEC_VER_env i))
                    (msgspec_ARCHIVE_FILE ROOT (MSGSPEC_VER_env i)) ;;
                  msgspec_copy_sources ROOT (MSGSPEC_VER_env i) ;;
                  msgspec_compile_link T ROOT (MSGSPEC_VER_env i) hr.1 hr.2 ;;
                  msgspec_package T ROOT).
    split.
    + intros hr.
      apply acts_bind; [| intros _].
      { eapply acts_weaken; [| | apply acts_unpack]; done. }
      apply acts_bind; [| intros _].
      { eapply acts_weaken; [| | apply acts_msgspec_copy_sources]; done. }
      apply acts_bind; [| intros _].
      { eapply acts_weaken; [| | apply (acts_msgspec_compile_link T ROOT)];
          done. }
      eapply acts_weaken; [| | apply acts_msgspec_package]; done.
    + intros s. unfold build_extension, build_msgspec.
      unfold mbind at 1, sh_mbind at 1, sh_bind at 1. cbn [ext_name].
      destruct (prepare T ROOT "msgspec" s) as [[[h r] | n | n |] s1];
        reflexivity.
Qed.

Lemma echo_no_work ev : is_echo ev = true → is_stage_work ev = false.
Proof. by destruct ev. Qed.

Lemma query_no_work ev : is_query ev = true → is_stage_work ev = false.
Proof.
  destruct ev; try done. cbn. intros H%bool_decide_eq_true. by subst.
Qed.

Lemma no_work_found (l : list event) :
  Forall (λ ev, is_stage_work ev = false) l →
  Exists (λ ev, is_stage_work ev = true) l → False.
Proof.
  rewrite Forall_forall, Exists_exists. intros F (ev & Hin & Hev).
  specialize (F ev Hin). congruence.
Qed.

End WorkAfterCheck.

(** X2.  In every run of an extension build, whatever the cache holds
    and wherever the run stops: if the source archive was unpacked, or a
    source was compiled, or the module linked, or the tarball started,
    then the checksum check of the stage is in the trace and none of that
    work comes before it. *)
Theorem work_follows_verification
    (T : tools) (ROOT : string) (i : inputs) (e : extension)
    (f : filesys) (budget : option nat) :
  let r := build_extension T ROOT i e (boot f budget) in
  Exists (λ ev, is_stage_work ev = true) (trace r.2) →
  ∃ before after,
    trace r.2
    = before ++ ShasumCheck (sumfile ROOT (Extension e)) false :: after
    ∧ Forall (λ ev, is_stage_work ev = false) before.
Proof.
  intros r Hex. subst r.
  destruct (build_extension_parts T ROOT i e)
    as (m1 & m2 & line & rest & Hrest & Hshape).
  rewrite Hshape in *.
  destruct (acts_prepare T ROOT (ext_name e) (boot f budget))
    as (_ & (evs1 & E1 & F1) & _).
  assert (Forall (λ ev, is_stage_work ev = false) evs1) as F1'.
  { eapply Forall_impl; [exact F1 |].
    intros ev [H | H]; [by apply echo_no_work | by apply query_no_work]. }
  destruct (prepare T ROOT (ext_name e) (boot f budget))
    as [[hr | n | n |] s1]; cbn [fst snd] in *;
    try (exfalso; rewrite E1 in Hex; by eapply no_work_found).
  destruct (fetch_outcome T (archive_file ROOT i (Extension e))
              (archive_url i (Extension e)) m1 m2 s1)
    as (_ & _ & evsF & EF & FF).
  assert (Forall (λ ev, is_stage_work ev = false) evsF) as FF'.
  { eapply Forall_impl; [exact FF |].
    intros ev [H | [-> _]]; [by apply echo_no_work | done]. }
  unfold mbind, sh_mbind, sh_bind in *.
  destruct (fetch_unless_cached T (archive_file ROOT i (Extension e))
              (archive_url i (Extension e)) m1 m2 s1)
    as [[[] | n | n |] s2]; cbn [fst snd] in *;
    try (exfalso; rewrite EF, E1 in Hex; eapply no_work_found; [| exact Hex];
         by apply Forall_app).
  destruct (verify_outcome T ROOT line (sumfile ROOT (Extension e)) false s2)
    as (_ & _ & _ & evsV & EV & FV).
  assert (Forall (λ ev, is_stage_work ev = false) evsV) as FV'.
  { eapply Forall_impl; [exact FV |].
    intros ev [H | ->]; [by apply echo_no_work | done]. }
  pose proof (verify_ret_trace T ROOT line (sumfile ROOT (Extension e))
                false s2) as ER.
  destruct (verify_checksums T ROOT line (sumfile ROOT (Extension e))
              false s2) as [[[] | n | n |] s3]; cbn [fst snd] in *;
    try (exfalso; rewrite EV, EF, E1 in Hex;
         eapply no_work_found; [| exact Hex];
         repeat (apply Forall_app; split); done).
  destruct (Hrest hr s3) as (_ & (evsR & ER' & _) & _).
  rewrite ER', (ER () eq_refl), EF, E1. cbn [app].
  exists (evs1 ++ evsF ++ [Echo line]), evsR. split.
  - by rewrite <- !app_assoc.
  - repeat (apply Forall_app; split); try done.
    by apply Forall_singleton.
Qed.

Lemma work_follows_verification_witness :
  let r := build_extension Toy.world Toy.ROOT Toy.inputs Xxhash
             (boot Toy.provisioned None) in
  Exists (λ ev, is_stage_work ev = true) (trace r.2)
  ∧ ∃ before after,
      trace r.2
      = before ++ ShasumCheck (sumfile Toy.ROOT (Extension Xxhash)) false
                  :: after
      ∧ Forall (λ ev, is_stage_work ev = false) before.
Proof.
  assert (Exists (λ ev, is_stage_work ev = true)
            (trace (build_extension Toy.world Toy.ROOT Toy.inputs Xxhash
                      (boot Toy.provisioned None)).2)) as H.
  { apply Exists_exists.
    exists (TarExtract "/r/_tooling/xxhash-3.4.1-pypi.tar.gz"
              "/r/_tooling/build-xxhash").
    split; [| done]. vm_compute. do 6 right. left. }
  split; [exact H |].
  exact (work_follows_verification Toy.world Toy.ROOT Toy.inputs Xxhash
           Toy.provisioned None H).
Defined.

(** ** What a finished build has packed *)

Section Returns.

Context (T : tools).

Local Arguments String.append !_ _ / : simpl nomatch.

(** A sequence that returns: its first part returned, and the rest ran
    from there. *)
Lemma bind_ret_inv {A B} (c : sh A) (k : A → sh B) s b :
  ((c ≫= k) s).1 = Ret b →
  ∃ a, (c s).1 = Ret a ∧ (c ≫= k) s = k a (c s).2.
Proof.
  unfold mbind, sh_mbind, sh_bind.
  destruct (c s) as [[a | n | n |] s1]; cbn; try done. eauto.
Qed.

Lemma or_true_state (c : sh unit) s : (or_true c s).2 = (c s).2.
Proof. unfold or_true. by destruct (c s) as [[a | n | n |] s1]. Qed.

Lemma echo_fs l s : fs (echo l s).2 = fs s.
Proof. unfold echo, command. by destruct (crash_in s) as [[| n] |]. Qed.







End Returns.

Section Packed.

Context (T : tools) (ROOT : string) (i : inputs).

Local Arguments file_at : simpl never.



End Packed.



(** ** The build directory starts empty *)

Section FreshBuildDir.

Context (T : tools) (ROOT : string).

Local Arguments file_at : simpl never.
Local Arguments read_file : simpl never.
Local Arguments is_file : simpl never.
Local Arguments is_dir : simpl never.
Local Arguments is_executable : simpl never.
Local Arguments mkdir_all : simpl never.
Local Arguments remove_tree : simpl never.



End FreshBuildDir.



(** ** The wrapper source under either archive layout *)

Section WrapperLayout.

Context (T : tools) (ROOT : string) (ver : option string).

Local Arguments is_file : simpl never.
Local Arguments mkdir_all : simpl never.




End WrapperLayout.


(** ** Staging the dependencies *)

Section Sequencing.

(** A property of the state a sequence ends in holds when it holds
    where the first part stops and, when that part returns, where the
    rest stops. *)
Lemma bind_state {A B} (I : state → Prop) (c : sh A) (k : A → sh B) s :
  I (c s).2 →
  (∀ a, (c s).1 = Ret a → I (k a (c s).2).2) →
  I ((c ≫= k) s).2.
Proof.
  intros H1 H2. unfold mbind, sh_mbind, sh_bind.
  destruct (c s) as [[a | n | n |] s1]; cbn in *; auto.
Qed.

Lemma bind_assoc {A B C} (c : sh A) (k : A → sh B) (h : B → sh C) s :
  ((c ≫= k) ≫= h) s = (c ≫= λ a, k a ≫= h) s.
Proof.
  unfold mbind, sh_mbind, sh_bind.
  by destruct (c s) as [[a | n | n |] s1].
Qed.

Lemma bind_ext {A B} (c : sh A) (k k' : A → sh B) s :
  (∀ a s', k a s' = k' a s') → (c ≫= k) s = (c ≫= k') s.
Proof.
  intros H. unfold mbind, sh_mbind, sh_bind.
  by destruct (c s) as [[a | n | n |] s1].
Qed.

Lemma bash_state (c : sh unit) s : (bash c s).2 = (c s).2.
Proof. unfold bash. by destruct (c s) as [[[] | n | [| n] |] s1]. Qed.

Lemma acts_bash W P (c : sh unit) : acts W P c → acts W P (bash c).
Proof. intros H s. rewrite bash_state. apply H. Qed.

Lemma acts_mkdir1 W P p : acts W P (mkdir1 p).
Proof.
  apply acts_command; [| done]. intros f.
  destruct (f !! p) as [n |] eqn:E; cbn; [apply keeps_refl |].
  destruct (is_dir f (PathOps.dirname p)); cbn;
    [by apply keeps_insert_dir | apply keeps_refl].
Qed.

Lemma keeps_is_file W (f f' : filesys) p :
  keeps W f f' → ¬ W p → is_file f' p = is_file f p.
Proof.
  intros K Hp. rewrite !is_file_file_at. by destruct (K p Hp) as [-> _].
Qed.

Lemma keeps_is_executable W (f f' : filesys) p :
  keeps W f f' → ¬ W p →
  is_executable f p = true → is_executable f' p = true.
Proof.
  intros K Hp. destruct (K p Hp) as [Kf Kd]. revert Kf Kd.
  unfold file_at, is_dir, is_executable.
  destruct (f !! p) as [[c x |] |]; try done.
  - destruct (f' !! p) as [[c' x' |] |]; try done. by intros [= -> ->].
  - intros _ Kd _. specialize (Kd eq_refl).
    by destruct (f' !! p) as [[c' x' |] |].
Qed.

End Sequencing.

Section StagingSteps.

Context (T : tools) (ROOT : string) (i : inputs).

Local Arguments file_at : simpl never.
Local Arguments is_file : simpl never.
Local Arguments is_dir : simpl never.
Local Arguments is_executable : simpl never.

(** A cached file is not fetched, wherever the machine stops. *)
Lemma fetch_cached file url m1 m2 s :
  is_file (fs s) file = true →
  fetch_unless_cached T file url m1 m2 s = echo m2 s.
Proof.
  intros H. unfold fetch_unless_cached.
  unfold mbind at 1, sh_mbind at 1, sh_bind at 1, test. cbn [fst snd].
  by rewrite H.
Qed.


Lemma acts_fetch_pydantic_cached s :
  is_file (fs s) (PYDANTIC_TAR ROOT) = true →
  keeps (λ _, False) (fs s) (fs (fetch_pydantic T ROOT s).2)
  ∧ ∃ evs, trace (fetch_pydantic T ROOT s).2 = trace s ++ evs
           ∧ Forall (λ ev, is_echo ev = true
                           ∨ ev = ShasumCheck (pydantic_SUMFILE ROOT) false)
               evs.
Proof.
  intros H.
  assert (fetch_pydantic T ROOT s
          = (echo ("Using cached " +:+ PYDANTIC_TAR ROOT) ;;
             verify_checksums T ROOT "Verifying checksum"
               (pydantic_SUMFILE ROOT) false) s) as ->.
  { unfold fetch_pydantic, mbind at 1, sh_mbind at 1, sh_bind at 1.
    by rewrite fetch_cached. }
  assert (acts (λ _, False)
            (λ ev, is_echo ev = true
                   ∨ ev = ShasumCheck (pydantic_SUMFILE ROOT) false)
            (echo ("Using cached " +:+ PYDANTIC_TAR ROOT) ;;
             verify_checksums T ROOT "Verifying checksum"
               (pydantic_SUMFILE ROOT) false)) as Ha.
  { unfold verify_checksums. repeat acts_step; auto. }
  destruct (Ha s) as (K & E & _). by split.
Qed.

(** The tarball the staging looks for is the one the build writes. *)
Lemma tar_of e :
  OUT_TAR ROOT (ext_name e)
  = match e with
    | Msgspec => MSGSPEC_TAR ROOT
    | Xxhash => XXHASH_TAR ROOT
    end.
Proof.
  destruct e; unfold OUT_TAR, MSGSPEC_TAR, XXHASH_TAR, Path.join;
    cbn [ext_name]; by rewrite !append_assoc.
Qed.

(** The staging of one extension: nothing but a line when the tarball
    is cached, its build in its workspace otherwise. *)
Lemma build_unless_cached_cached e s :
  is_file (fs s) (OUT_TAR ROOT (ext_name e)) = true →
  ∃ l, build_unless_cached T ROOT i e s = echo l s.
Proof.
  intros H. unfold build_unless_cached.
  unfold mbind at 1, sh_mbind at 1, sh_bind at 1, test. cbn [fst snd].
  rewrite tar_of in H. destruct e; rewrite H; cbn; eauto.
Qed.







End StagingSteps.

Section StagingStart.

Context (T : tools) (ROOT : string) (i : inputs).

Local Arguments file_at : simpl never.
Local Arguments is_file : simpl never.
Local Arguments is_dir : simpl never.
Local Arguments is_executable : simpl never.

(** A sequence ends as its first part when that does not return, and
    as the rest otherwise. *)
Lemma bind_elim {A B} (Q : outcome B → state → Prop) (c : sh A)
    (k : A → sh B) s :
  (∀ a, (c s).1 = Ret a → Q (k a (c s).2).1 (k a (c s).2).2) →
  (∀ n, (c s).1 = Err n → Q (Err n) (c s).2) →
  (∀ n, (c s).1 = Halt n → Q (Halt n) (c s).2) →
  ((c s).1 = Crash → Q Crash (c s).2) →
  Q ((c ≫= k) s).1 ((c ≫= k) s).2.
Proof.
  intros H1 H2 H3 H4. unfold mbind, sh_mbind, sh_bind.
  destruct (c s) as [[a | n | n |] s1]; cbn in *; auto.
Qed.

Lemma test_bind {B} (b : filesys → bool) (k : bool → sh B) s :
  (test b ≫= k) s = k (b (fs s)) s.
Proof. reflexivity. Qed.

Lemma echo_outcome l s : (echo l s).1 = Ret () ∨ (echo l s).1 = Crash.
Proof. unfold echo, command. destruct (crash_in s) as [[| n] |]; auto. Qed.

Lemma mkdir1_outcome p s :
  (or_true (mkdir1 p) s).1 = Ret () ∨ (or_true (mkdir1 p) s).1 = Crash.
Proof.
  unfold or_true, mkdir1, command.
  destruct (crash_in s) as [[| n] |]; cbn; auto;
    repeat case_match; simplify_eq; auto.
Qed.

Lemma mkdir1_lookup p q s :
  q ≠ p → fs (or_true (mkdir1 p) s).2 !! q = fs s !! q.
Proof.
  intros Hq. rewrite or_true_state. unfold mkdir1, command.
  destruct (crash_in s) as [[| n] |]; cbn; try done;
    repeat case_match; simplify_eq; cbn; by rewrite ?lookup_insert_ne.
Qed.

Lemma need_cpython_started f s :
  staging_started ROOT f s →
  NEED_CPYTHON ROOT (fs s) = NEED_CPYTHON ROOT f.
Proof.
  intros (L & _ & _). unfold NEED_CPYTHON, is_executable, is_dir.
  rewrite !L; [done | |].
  - intros H. apply (f_equal String.length) in H. revert H.
    unfold Path.join. rewrite !length_append. cbn. lia.
  - intros H. apply (f_equal String.length) in H. revert H.
    unfold WASI_DIR, Path.join. rewrite !length_append. cbn. lia.
Qed.

(** The staging up to its toolchain check: the machine can stop there,
    and nothing else ends the script. *)
Lemma staging_start (Q : outcome unit → state → Prop) f budget :
  (∀ s, staging_started ROOT f s → Q Crash s) →
  (∀ s, staging_started ROOT f s →
        Q ((stage_toolchain T ROOT i (NEED_CPYTHON ROOT f) ;;
            fetch_pydantic T ROOT ;;
            build_unless_cached T ROOT i Msgspec ;;
            build_unless_cached T ROOT i Xxhash) s).1
          ((stage_toolchain T ROOT i (NEED_CPYTHON ROOT f) ;;
            fetch_pydantic T ROOT ;;
            build_unless_cached T ROOT i Msgspec ;;
            build_unless_cached T ROOT i Xxhash) s).2) →
  Q (stage_deps T ROOT i (boot f budget)).1
    (stage_deps T ROOT i (boot f budget)).2.
Proof.
  intros Hcrash Hrest. unfold stage_deps.
  assert (staging_started ROOT f
            (echo "Step 2: Stage deps (deps/site-packages/...)"
               (boot f budget)).2) as J1.
  { destruct (acts_echo (λ _, False) (λ ev, is_echo ev = true)
                "Step 2: Stage deps (deps/site-packages/...)" eq_refl
                (boot f budget)) as (K & (evs & E & F) & _).
    split; [by rewrite echo_fs | split; [done |]].
    by rewrite E. }
  destruct (echo_outcome "Step 2: Stage deps (deps/site-packages/...)"
              (boot f budget)) as [E1 | E1];
    apply bind_elim; rewrite E1; try done; [| by intros _; apply Hcrash].
  intros [] _. revert J1.
  generalize (echo "Step 2: Stage deps (deps/site-packages/...)"
                (boot f budget)).2.
  intros s1 (L1 & K1 & F1).
  assert (staging_started ROOT f (or_true (mkdir1 (TOOL_DIR ROOT)) s1).2)
    as J2.
  { destruct (acts_or_true (λ _, False) (λ ev, is_echo ev = true) _
                (acts_mkdir1 _ _ (TOOL_DIR ROOT)) s1)
      as (K & (evs & E & F) & _).
    split; [| split].
    - intros q Hq. by rewrite mkdir1_lookup, L1.
    - by eapply keeps_trans.
    - rewrite E. by apply Forall_app. }
  destruct (mkdir1_outcome (TOOL_DIR ROOT) s1) as [E2 | E2];
    apply bind_elim; rewrite E2; try done; [| by intros _; apply Hcrash].
  intros [] _. revert J2.
  generalize (or_true (mkdir1 (TOOL_DIR ROOT)) s1).2. intros s2 J2.
  rewrite test_bind, (need_cpython_started f s2 J2).
  by apply Hrest.
Qed.

End StagingStart.

Section StagingRest.

Context (T : tools) (ROOT : string) (i : inputs).

Local Arguments file_at : simpl never.
Local Arguments read_file : simpl never.
Local Arguments is_file : simpl never.
Local Arguments is_dir : simpl never.
Local Arguments is_executable : simpl never.


(** With everything cached, what is left of the staging prints lines
    and checks the prebuilt tarball. *)
Lemma staging_rest_idle f s :
  is_file f (PYDANTIC_TAR ROOT) = true →
  is_file f (MSGSPEC_TAR ROOT) = true →
  is_file f (XXHASH_TAR ROOT) = true →
  staging_started ROOT f s →
  let r := (fetch_pydantic T ROOT ;;
            build_unless_cached T ROOT i Msgspec ;;
            build_unless_cached T ROOT i Xxhash) s in
  keeps (λ _, False) f (fs r.2)
  ∧ Forall (λ ev, is_echo ev = true
                  ∨ ev = ShasumCheck (pydantic_SUMFILE ROOT) false)
      (trace r.2).
Proof.
  intros Hp Hm Hx (_ & K0 & F0). cbv zeta.
  set (P := λ ev, is_echo ev = true
                  ∨ ev = ShasumCheck (pydantic_SUMFILE ROOT) false).
  set (I := λ s : state, keeps (λ _, False) f (fs s) ∧ Forall P (trace s)).
  assert (∀ s l, I s → I (echo l s).2) as Hecho.
  { intros s' l [K F].
    destruct (acts_echo (λ _, False) P l (or_introl eq_refl) s')
      as (K' & (evs & E & F') & _).
    split; [by eapply keeps_trans |]. rewrite E. by apply Forall_app. }
  assert (I s) as I0.
  { split; [done |]. eapply Forall_impl; [exact F0 |]. by left. }
  assert (I (fetch_pydantic T ROOT s).2) as I1.
  { destruct I0 as [K F].
    destruct (acts_fetch_pydantic_cached T ROOT s) as (K' & evs & E & F').
    { by rewrite (keeps_is_file _ _ _ _ K (λ H, H)). }
    split; [by eapply keeps_trans |]. rewrite E. by apply Forall_app. }
  apply (bind_state I); [done | intros [] _].
  revert I1. generalize (fetch_pydantic T ROOT s).2. intros s1 I1.
  assert (I (build_unless_cached T ROOT i Msgspec s1).2) as I2.
  { destruct (build_unless_cached_cached T ROOT i Msgspec s1) as [l ->].
    - rewrite tar_of. destruct I1 as [K F].
      by rewrite (keeps_is_file _ _ _ _ K (λ H, H)).
    - by apply Hecho. }
  apply (bind_state I); [done | intros [] _].
  revert I2. generalize (build_unless_cached T ROOT i Msgspec s1).2.
  intros s2 I2.
  destruct (build_unless_cached_cached T ROOT i Xxhash s2) as [l ->].
  - rewrite tar_of. destruct I2 as [K F].
    by rewrite (keeps_is_file _ _ _ _ K (λ H, H)).
  - by apply Hecho.
Qed.

Lemma pydantic_sumfile_not_tar : pydantic_SUMFILE ROOT ≠ PYDANTIC_TAR ROOT.
Proof.
  unfold pydantic_SUMFILE, PYDANTIC_TAR. intros H. unfold_paths.
  apply (inj (String.append _)) in H. discriminate H.
Qed.

(** From the fetch of the prebuilt tarball on: a tarball that the
    checksum file lists with another digest ends the staging there. *)
Lemma prebuilt_gate s bytes text sum :
  rejects_mismatch T →
  ((∃ x, file_at (fs s) (PYDANTIC_TAR ROOT) = Some (bytes, x))
   ∨ (file_at (fs s) (PYDANTIC_TAR ROOT) = None
      ∧ http_get T PYDANTIC_WASI_WHEEL = Body bytes)) →
  read_file (fs s) (pydantic_SUMFILE ROOT) = Some text →
  Sums.listed text sum "pydantic_core-wasi.tar.gz" →
  Sums.lc sum ≠ digest T 64 bytes →
  let r := (fetch_pydantic T ROOT ;;
            build_unless_cached T ROOT i Msgspec ;;
            build_unless_cached T ROOT i Xxhash) s in
  succeeded r.1 = false
  ∧ ∃ evs, trace r.2 = trace s ++ evs
           ∧ Forall (λ ev, is_echo ev = true
                           ∨ ev = Curl PYDANTIC_WASI_WHEEL (PYDANTIC_TAR ROOT)
                           ∨ ev = ShasumCheck (pydantic_SUMFILE ROOT) false)
               evs.
Proof.
  intros Hsound Hbytes Hsums Hin Hbad. cbv zeta.
  unfold fetch_pydantic. rewrite bind_assoc.
  destruct (gate T ROOT
              (build_unless_cached T ROOT i Msgspec ;;
               build_unless_cached T ROOT i Xxhash)
              (PYDANTIC_TAR ROOT) PYDANTIC_WASI_WHEEL
              ("Dowloading " +:+ PYDANTIC_TAR ROOT)
              ("Using cached " +:+ PYDANTIC_TAR ROOT)
              "Verifying checksum" (pydantic_SUMFILE ROOT) false
              "pydantic_core-wasi.tar.gz" s bytes text sum)
    as (Hfail & evs & E & Fe); try done.
  - apply pydantic_sumfile_not_tar.
  - split; [exact Hfail |]. exists evs. split; [exact E |].
    eapply Forall_impl; [exact Fe |].
    intros ev [H | [H | [H _]]]; auto.
Qed.

(** An unsupported platform ends the toolchain script before it
    fetches anything, and the staging with it. *)
Lemma toolchain_unsupported msg s :
  Platform.detect (OSTYPE i) (uname_m i) = Platform.UnsupportedOS msg →
  let r := stage_toolchain T ROOT i true s in
  succeeded r.1 = false
  ∧ keeps (λ _, False) (fs s) (fs r.2)
  ∧ ∃ evs, trace r.2 = trace s ++ evs
           ∧ Forall (λ ev, is_echo ev = true) evs.
Proof.
  intros Hd. cbv zeta.
  assert (acts (λ _, False) (λ ev, is_echo ev = true)
            (echo "[guest] Building CPython/WASI toolchain via build_cpython.sh" ;;
             bash (detect_platform ROOT (OSTYPE i) (uname_m i) ;; mret ())))
    as Ha.
  { apply acts_bind; [by apply acts_echo | intros _].
    apply acts_bash, acts_bind; [| intros ?; apply acts_ret].
    apply acts_detect_platform. }
  assert (∀ s', bash (build_cpython T ROOT (OSTYPE i) (uname_m i)) s'
                = bash (detect_platform ROOT (OSTYPE i) (uname_m i) ;;
                        mret ()) s'
                ∧ succeeded
                    (bash (build_cpython T ROOT (OSTYPE i) (uname_m i)) s').1
                  = false) as Hb.
  { intros s'. unfold bash, build_cpython, mbind, sh_mbind, sh_bind.
    destruct (detect_platform_outcome ROOT (OSTYPE i) (uname_m i) s')
      as [HR HH].
    destruct (detect_platform ROOT (OSTYPE i) (uname_m i) s')
      as [[P | n | n |] s1]; cbn in *; try done.
    - specialize (HR P eq_refl). congruence.
    - by rewrite (HH n eq_refl). }
  unfold stage_toolchain.
  assert ((echo "[guest] Building CPython/WASI toolchain via build_cpython.sh" ;;
           bash (build_cpython T ROOT (OSTYPE i) (uname_m i))) s
          = (echo "[guest] Building CPython/WASI toolchain via build_cpython.sh" ;;
             bash (detect_platform ROOT (OSTYPE i) (uname_m i) ;; mret ()))
              s) as E.
  { apply bind_ext. intros _ s'. apply Hb. }
  split.
  - unfold mbind, sh_mbind, sh_bind.
    destruct (echo_outcome
                "[guest] Building CPython/WASI toolchain via build_cpython.sh"
                s) as [He | He];
      destruct (echo _ s) as [[[] | n | n |] s1]; cbn in He; try done.
    apply Hb.
  - rewrite E. destruct (Ha s) as (K & Htr & _). by split.
Qed.

End StagingRest.



(** X7.  On a tool cache that holds the toolchain, the headers and the
    three tarballs, the staging changes no file and starts nothing but
    the checksum check of the prebuilt tarball: no download, no
    unpacking, no compiler, no linker. *)
Theorem staging_on_full_cache_is_idle
    (T : tools) (ROOT : string) (i : inputs) (f : filesys)
    (budget : option nat) :
  NEED_CPYTHON ROOT f = false →
  is_file f (PYDANTIC_TAR ROOT) = true →
  is_file f (MSGSPEC_TAR ROOT) = true →
  is_file f (XXHASH_TAR ROOT) = true →
  let r := stage_deps T ROOT i (boot f budget) in
  (∀ p, file_at (fs r.2) p = file_at f p)
  ∧ Forall (λ ev, is_echo ev = true
                  ∨ ev = ShasumCheck (pydantic_SUMFILE ROOT) false)
      (trace r.2).
Proof.
  intros Hneed Hp Hm Hx r. subst r.
  apply (staging_start T ROOT i
           (λ _ s, (∀ p, file_at (fs s) p = file_at f p)
                   ∧ Forall (λ ev, is_echo ev = true
                                   ∨ ev = ShasumCheck (pydantic_SUMFILE ROOT)
                                            false) (trace s))).
  - intros s (_ & K & F). split.
    + intros p. by apply (K p (λ H, H)).
    + eapply Forall_impl; [exact F |]. by left.
  - intros s J. rewrite Hneed.
    destruct (staging_rest_idle T ROOT i f s Hp Hm Hx J) as [K F].
    split; [| exact F]. intros p. by apply (K p (λ H, H)).
Qed.

Lemma staging_on_full_cache_is_idle_witness :
  let r := stage_deps Toy.world Toy.ROOT Toy.inputs
             (boot toy_full_cache None) in
  r.1 = Ret ()
  ∧ (∀ p, file_at (fs r.2) p = file_at toy_full_cache p)
  ∧ Forall (λ ev, is_echo ev = true
                  ∨ ev = ShasumCheck (pydantic_SUMFILE Toy.ROOT) false)
      (trace r.2).
Proof.
  split; [by vm_compute |].
  apply (staging_on_full_cache_is_idle Toy.world Toy.ROOT Toy.inputs
           toy_full_cache None); by vm_compute.
Defined.

(** X8.  With the toolchain and the headers in place, and a checksum
    tool that rejects a listed file with another digest: when the
    checksum file of the prebuilt tarball lists it with a digest that its
    bytes, cached or just fetched, do not have, the staging does not
    succeed, and it has only printed lines, fetched and run the check.
    Neither extension build is started. *)
Theorem prebuilt_tarball_gate
    (T : tools) (ROOT : string) (i : inputs) (f : filesys)
    (budget : option nat) (bytes text sum : string) :
  rejects_mismatch T →
  NEED_CPYTHON ROOT f = false →
  ((∃ x, file_at f (PYDANTIC_TAR ROOT) = Some (bytes, x))
   ∨ (file_at f (PYDANTIC_TAR ROOT) = None
      ∧ http_get T PYDANTIC_WASI_WHEEL = Body bytes)) →
  read_file f (pydantic_SUMFILE ROOT) = Some text →
  Sums.listed text sum "pydantic_core-wasi.tar.gz" →
  Sums.lc sum ≠ digest T 64 bytes →
  let r := stage_deps T ROOT i (boot f budget) in
  succeeded r.1 = false
  ∧ Forall (λ ev, is_echo ev = true
                  ∨ ev = Curl PYDANTIC_WASI_WHEEL (PYDANTIC_TAR ROOT)
                  ∨ ev = ShasumCheck (pydantic_SUMFILE ROOT) false)
      (trace r.2).
Proof.
  intros Hsound Hneed Hbytes Hsums Hin Hbad r. subst r.
  apply (staging_start T ROOT i
           (λ o s, succeeded o = false
                   ∧ Forall (λ ev, is_echo ev = true
                                   ∨ ev = Curl PYDANTIC_WASI_WHEEL
                                            (PYDANTIC_TAR ROOT)
                                   ∨ ev = ShasumCheck (pydantic_SUMFILE ROOT)
                                            false) (trace s))).
  - intros s (_ & _ & F). split; [done |].
    eapply Forall_impl; [exact F |]. by left.
  - intros s (_ & K & F). rewrite Hneed.
    assert (∀ p, file_at (fs s) p = file_at f p) as Kf.
    { intros p. by apply (K p (λ H, H)). }
    change ((stage_toolchain T ROOT i false ;;
             fetch_pydantic T ROOT ;;
             build_unless_cached T ROOT i Msgspec ;;
             build_unless_cached T ROOT i Xxhash) s)
      with ((fetch_pydantic T ROOT ;;
             build_unless_cached T ROOT i Msgspec ;;
             build_unless_cached T ROOT i Xxhash) s).
    destruct (prebuilt_gate T ROOT i s bytes text sum)
      as (Hfail & evs & E & Fe); try done.
    + by rewrite Kf.
    + by rewrite (read_file_eq _ _ _ (Kf _)).
    + split; [exact Hfail |]. rewrite E. apply Forall_app. split; [| done].
      eapply Forall_impl; [exact F |]. by left.
Qed.

Lemma prebuilt_tarball_gate_witness :
  let r := stage_deps Toy.world Toy.ROOT Toy.inputs
             (boot toy_tampered_staging_cache None) in
  succeeded r.1 = false
  ∧ Forall (λ ev, is_echo ev = true
                  ∨ ev = Curl PYDANTIC_WASI_WHEEL (PYDANTIC_TAR Toy.ROOT)
                  ∨ ev = ShasumCheck (pydantic_SUMFILE Toy.ROOT) false)
      (trace r.2).
Proof.
  apply (prebuilt_tarball_gate Toy.world Toy.ROOT Toy.inputs
           toy_tampered_staging_cache None "tampered"
           (Toy.sum_line "pydantic_core-wasi.tar.gz")
           (Toy.repeat_char "a" 64)).
  - exact toy_rejects_mismatch.
  - by vm_compute.
  - left. exists false. by vm_compute.
  - by vm_compute.
  - split; [by vm_compute |]. split; [by vm_compute |].
    apply (bool_decide_unpack _). by vm_compute.
  - by vm_compute.
Defined.

(** X9.  When the compiler or the headers are missing and the platform
    is not a supported one, the staging starts the toolchain script,
    which stops at the platform detection; the staging fails with it,
    having printed lines only.  Nothing is fetched and no file is
    changed. *)
Theorem unsupported_platform_stops_staging
    (T : tools) (ROOT : string) (i : inputs) (f : filesys)
    (budget : option nat) (msg : string) :
  NEED_CPYTHON ROOT f = true →
  Platform.detect (OSTYPE i) (uname_m i) = Platform.UnsupportedOS msg →
  let r := stage_deps T ROOT i (boot f budget) in
  succeeded r.1 = false
  ∧ (∀ p, file_at (fs r.2) p = file_at f p)
  ∧ Forall (λ ev, is_echo ev = true) (trace r.2).
Proof.
  intros Hneed Hd r. subst r.
  apply (staging_start T ROOT i
           (λ o s, succeeded o = false
                   ∧ (∀ p, file_at (fs s) p = file_at f p)
                   ∧ Forall (λ ev, is_echo ev = true) (trace s))).
  - intros s (_ & K & F). split; [done |]. split; [| done].
    intros p. by apply (K p (λ H, H)).
  - intros s (_ & K & F). rewrite Hneed.
    destruct (toolchain_unsupported T ROOT i msg s Hd)
      as (Hfail & K' & evs & E & F').
    destruct (bind_failed (stage_toolchain T ROOT i true)
                (λ _, fetch_pydantic T ROOT ;;
                      build_unless_cached T ROOT i Msgspec ;;
                      build_unless_cached T ROOT i Xxhash) s Hfail)
      as [-> ->].
    split; [done |]. split.
    + intros p. destruct (K' p (λ H, H)) as [-> _]. by apply (K p (λ H, H)).
    + rewrite E. by apply Forall_app.
Qed.

Lemma unsupported_platform_stops_staging_witness :
  let r := stage_deps Toy.world Toy.ROOT
             (Inputs None None "freebsd13.0" "amd64")
             (boot Toy.no_headers None) in
  succeeded r.1 = false
  ∧ (∀ p, file_at (fs r.2) p = file_at Toy.no_headers p)
  ∧ Forall (λ ev, is_echo ev = true) (trace r.2).
Proof.
  apply (unsupported_platform_stops_staging Toy.world Toy.ROOT
           (Inputs None None "freebsd13.0" "amd64") Toy.no_headers None
           "Unsupported OS: freebsd13.0").
  - by vm_compute.
  - by vm_compute.
Defined.

(** ** The toolchain script *)

Section ToolchainScript.

Context (T : tools) (ROOT : string).

Local Arguments file_at : simpl never.
Local Arguments read_file : simpl never.
Local Arguments is_file : simpl never.
Local Arguments is_dir : simpl never.
Local Arguments is_executable : simpl never.
Local Arguments mkdir_all : simpl never.

(** A program that writes nowhere keeps a state that kept everything. *)
Lemma acts_quiet {A} (P : event → Prop) (c : sh A) f s :
  acts (λ _, False) P c →
  keeps (λ _, False) f (fs s) ∧ Forall P (trace s) →
  keeps (λ _, False) f (fs (c s).2) ∧ Forall P (trace (c s).2).
Proof.
  intros Ha [K F]. destruct (Ha s) as (K' & (evs & E & F') & _).
  split; [by eapply keeps_trans |]. rewrite E. by apply Forall_app.
Qed.

Lemma acts_verify_sdk :
  acts (λ _, False)
    (λ ev, is_echo ev = true ∨ is_query ev = true
           ∨ ev = ShasumCheck (wasi_SUMFILE ROOT) true)
    (verify_sdk T ROOT).
Proof. unfold verify_sdk, verify_checksums. repeat acts_step; auto. Qed.

(** The toolchain on a cache that has its archive and its directory:
    lines, the check, and the compiler's answer. *)
Lemma provision_cached P f s :
  is_file f (WASI_TARBALL ROOT P) = true →
  is_dir f (WASI_DIR ROOT) = true →
  let I := λ s : state,
    keeps (λ _, False) f (fs s)
    ∧ Forall (λ ev, is_echo ev = true ∨ is_query ev = true
                    ∨ ev = ShasumCheck (wasi_SUMFILE ROOT) true) (trace s) in
  I s → I (provision_toolchain T ROOT P s).2.
Proof.
  intros Htar Hdir I I0. unfold provision_toolchain.
  assert (∀ s l, I s → I (echo l s).2) as Hecho.
  { intros s' l. apply acts_quiet. apply acts_echo. by left. }
  assert (I (fetch_sdk T ROOT P s).2) as I1.
  { unfold fetch_sdk. rewrite fetch_cached; [by apply Hecho |].
    destruct I0 as [K _]. by rewrite (keeps_is_file _ _ _ _ K (λ H, H)). }
  apply (bind_state I); [done | intros [] _].
  revert I1. generalize (fetch_sdk T ROOT P s).2. intros s1 I1.
  assert (I (verify_sdk T ROOT s1).2) as I2.
  { revert I1. apply acts_quiet, acts_verify_sdk. }
  apply (bind_state I); [done | intros [] _].
  revert I2. generalize (verify_sdk T ROOT s1).2. intros s2 I2.
  assert (I (extract_sdk T ROOT P s2).2) as I3.
  { rewrite extract_sdk_skipped; [by apply Hecho |].
    destruct I2 as [K _]. by apply (K _ (λ H, H)). }
  apply (bind_state I); [done | intros [] _].
  revert I3. generalize (extract_sdk T ROOT P s2).2. intros s3 I3.
  revert I3. apply acts_quiet.
  eapply acts_weaken; [| | apply acts_locate_compiler]; [done |].
  intros ev [H | H]; auto.
Qed.

End ToolchainScript.

(** X10.  A rerun of the toolchain script on a tool cache that holds
    the toolchain archive, the unpacked toolchain and the runtime headers
    changes no file.  It prints lines, runs the checksum check of the
    toolchain archive and asks the compiler for its resource directory:
    nothing is fetched, unpacked or configured, wherever the run stops. *)
Theorem toolchain_script_rerun_is_idle
    (T : tools) (ROOT : string) (i : inputs) (f : filesys)
    (budget : option nat) :
  is_file f (WASI_TARBALL ROOT (platform_of i)) = true →
  is_dir f (WASI_DIR ROOT) = true →
  is_dir f (HEADERS_OUT ROOT) = true →
  let r := build_cpython T ROOT (OSTYPE i) (uname_m i) (boot f budget) in
  (∀ p, file_at (fs r.2) p = file_at f p)
  ∧ Forall (λ ev, is_echo ev = true ∨ is_query ev = true
                  ∨ ev = ShasumCheck (wasi_SUMFILE ROOT) true) (trace r.2).
Proof.
  intros Htar Hdir Hhdr r. subst r.
  set (I := λ s : state,
         keeps (λ _, False) f (fs s)
         ∧ Forall (λ ev, is_echo ev = true ∨ is_query ev = true
                         ∨ ev = ShasumCheck (wasi_SUMFILE ROOT) true)
             (trace s)).
  assert (I (build_cpython T ROOT (OSTYPE i) (uname_m i) (boot f budget)).2)
    as [K F]; [| split; [intros p; by apply (K p (λ H, H)) | done]].
  unfold build_cpython.
  assert (I (detect_platform ROOT (OSTYPE i) (uname_m i) (boot f budget)).2)
    as I1.
  { apply acts_quiet.
    - eapply acts_weaken; [| | apply acts_detect_platform]; [done |].
      intros ev H. by left.
    - split; [apply keeps_refl | done]. }
  apply (bind_state I); [done | intros P HP].
  destruct (detect_platform_outcome ROOT (OSTYPE i) (uname_m i)
              (boot f budget)) as [HR _].
  specialize (HR P HP).
  assert (platform_of i = P) as HPi by (unfold platform_of; by rewrite HR).
  rewrite HPi in Htar. revert I1.
  generalize (detect_platform ROOT (OSTYPE i) (uname_m i) (boot f budget)).2.
  intros s1 I1.
  pose proof (provision_cached T ROOT P f s1 Htar Hdir I1) as I2.
  apply (bind_state I); [done | intros RT _].
  revert I2. generalize (provision_toolchain T ROOT P s1).2. intros s2 I2.
  rewrite cross_build_runtime_skipped; [done |].
  destruct I2 as [K2 _]. by apply (K2 _ (λ H, H)).
Qed.

Lemma toolchain_script_rerun_is_idle_witness :
  let r := build_cpython Toy.world Toy.ROOT (OSTYPE Toy.inputs)
             (uname_m Toy.inputs) (boot Toy.sdk_extracted None) in
  (∀ p, file_at (fs r.2) p = file_at Toy.sdk_extracted p)
  ∧ Forall (λ ev, is_echo ev = true ∨ is_query ev = true
                  ∨ ev = ShasumCheck (wasi_SUMFILE Toy.ROOT) true)
      (trace r.2).
Proof.
  apply (toolchain_script_rerun_is_idle Toy.world Toy.ROOT Toy.inputs
           Toy.sdk_extracted None); by vm_compute.
Defined.

(** * The checksum verification of the stages *)

Section WholeScripts.

Context {T : tools}.



End WholeScripts.



Section StageVerifications.

Context (T : tools) (ROOT : string) (i : inputs).


End StageVerifications.



(** ** The integrity gate of every fetch *)

Section FetchGate.

Context (T : tools) (ROOT : string) (i : inputs).

Local Arguments file_at : simpl never.
Local Arguments read_file : simpl never.


End FetchGate.




(** ** A cached archive is checked *)

Section CachedChecked.

Context (T : tools) (ROOT : string) (i : inputs).

Local Arguments file_at : simpl never.
Local Arguments read_file : simpl never.
Local Arguments is_file : simpl never.
Local Arguments is_dir : simpl never.



End CachedChecked.




Section HeadersProvided.

Context (T : tools) (ROOT : string).

Local Arguments file_at : simpl never.
Local Arguments is_file : simpl never.
Local Arguments is_dir : simpl never.
Local Arguments mkdir_all : simpl never.

Lemma mkdirs_made ps (f : filesys) q :
  (mkdirs ps f).1 = true → q ∈ ps → is_dir (mkdirs ps f).2 q = true.
Proof.
  revert f. induction ps as [| p ps IH]; intros f Hok Hq.
  - by apply elem_of_nil in Hq.
  - cbn in Hok |- *. apply elem_of_cons in Hq.
    destruct (f !! p) as [[c x |] |] eqn:Hp; [done | |].
    + destruct Hq as [-> | Hq]; [| by apply IH].
      apply (keeps_mkdirs (λ _, False) ps f p (λ H, H)).
      unfold is_dir. by rewrite Hp.
    + destruct Hq as [-> | Hq]; [| by apply IH].
      apply (keeps_mkdirs (λ _, False) ps (<[p := Dir]> f) p (λ H, H)).
      unfold is_dir. by rewrite lookup_insert_eq.
Qed.

Lemma mkdir_all_made ps (f : filesys) q :
  (mkdir_all ps f).1 = true → q ∈ ps → is_dir (mkdir_all ps f).2 q = true.
Proof.
  revert f. induction ps as [| p ps IH]; intros f Hok Hq.
  - by apply elem_of_nil in Hq.
  - revert Hok. unfold mkdir_all; fold mkdir_all. unfold mkdir_p1.
    pose proof (mkdirs_made (Path.ancestors p ++ [p]) f p) as H1.
    destruct (mkdirs (Path.ancestors p ++ [p]) f) as [ok f1].
    pose proof (IH f1) as H2.
    pose proof (keeps_mkdir_all (λ _, False) ps f1) as K.
    destruct (mkdir_all ps f1) as [ok' f2]. cbn in *.
    intros [-> ->]%andb_true_iff.
    apply elem_of_cons in Hq as [-> | Hq]; [| by apply H2].
    apply (K p (λ H, H)), H1; [done |]. set_solver.
Qed.

Lemma mkdir_p_ret ps s u q :
  (mkdir_p ps s).1 = Ret u → q ∈ ps → is_dir (fs (mkdir_p ps s).2) q = true.
Proof.
  unfold mkdir_p, command.
  destruct (crash_in s) as [[| n] |]; cbn; try done;
    pose proof (mkdir_all_made ps (fs s) q) as H;
    destruct (mkdir_all ps (fs s)) as [[] f1]; cbn in *; try done; auto.
Qed.

Lemma not_below_slash d : ¬ below (d +:+ "/") d.
Proof.
  unfold below. intros [r E]%prefix_elim.
  apply (f_equal String.length) in E. rewrite !length_append in E.
  cbn in E. lia.
Qed.

(** Copies into a directory write below it. *)
Lemma acts_cp_R_glob_inside P dir suf dst :
  acts (below (dst +:+ "/")) P (cp_R_glob dir suf dst).
Proof.
  apply acts_command; [| done]. intros f.
  destruct (glob_suffix dir suf f) as [| n names] eqn:E;
    [apply keeps_refl |].
  destruct (is_dir f dst) eqn:Hd; rewrite ?Hd; [| apply keeps_refl].
  cbn [snd]. apply keeps_write_all. intros w Hw.
  apply list_elem_of_join in Hw. destruct Hw as [l [Hw Hl]].
  apply list_elem_of_fmap in Hl. destruct Hl as [m [-> _]].
  apply subtree_as_below in Hw.
  eapply prefix_trans; [| exact Hw].
  unfold Path.join. rewrite <- append_assoc. apply prefix_append.
Qed.

Lemma acts_cp_inside P src dst :
  acts (below (dst +:+ "/")) P (cp src dst).
Proof.
  apply acts_command; [| done]. intros f.
  destruct (f !! src) as [[c x |] |]; try apply keeps_refl.
  destruct (is_dir f dst) eqn:Hd; rewrite ?Hd; [| apply keeps_refl].
  cbn [snd]. apply keeps_insert.
  unfold below, Path.join. rewrite <- append_assoc. apply prefix_append.
Qed.

(** What holds after every continuation that returns holds after a
    sequence that returns. *)
Lemma bind_ret_post {A B} (c : sh A) (k : A → sh B) s u (Q : state → Prop) :
  (∀ a s', (k a s').1 = Ret u → Q (k a s').2) →
  ((c ≫= k) s).1 = Ret u → Q ((c ≫= k) s).2.
Proof.
  intros Hk H. destruct (bind_ret_inv _ _ _ _ H) as (a & _ & E).
  rewrite E in H |- *. by apply Hk.
Qed.

(** The headers step of the runtime stage ends with the headers
    directory in place. *)
Lemma configure_and_copy_headers_ret rt s u :
  (configure_and_copy_headers T ROOT rt s).1 = Ret u →
  is_dir (fs (configure_and_copy_headers T ROOT rt s).2) (HEADERS_OUT ROOT)
  = true.
Proof.
  unfold configure_and_copy_headers. revert s.
  do 14 (intros s;
         apply (bind_ret_post _ _ s u (λ s', is_dir (fs s') _ = true));
         clear s; intros ?).
  intros s H. destruct (bind_ret_inv _ _ _ _ H) as (made & Ha & E).
  rewrite E. clear E H.
  apply (mkdir_p_ret _ _ _ (HEADERS_OUT ROOT)) in Ha; [| set_solver].
  revert Ha.
  generalize (mkdir_p [HEADERS_OUT ROOT] s).2. intros s' Hd.
  assert (acts (below (HEADERS_OUT ROOT +:+ "/")) (λ _, True)
            (cp_R_glob (PY_SRC ROOT </> "Include") "" (HEADERS_OUT ROOT) ;;
             cp (PY_SRC ROOT </> "pyconfig.h") (HEADERS_OUT ROOT) ;;
             echo ("[cpython] PY_INC=" +:+ HEADERS_OUT ROOT) ;;
             echo "[cpython] PY_ABI=cp312")) as Hacts.
  { apply acts_bind; [apply acts_cp_R_glob_inside | intros _].
    apply acts_bind; [apply acts_cp_inside | intros _].
    apply acts_bind; [by apply acts_echo | intros _].
    by apply acts_echo. }
  destruct (Hacts s') as (K & _ & _).
  by apply (K _ (not_below_slash (HEADERS_OUT ROOT))).
Qed.

End HeadersProvided.

(** X11.  A run of build_cpython.sh that ends without an error leaves
    the directory of the runtime headers in the tool cache, whether the
    headers were there or were built. *)
Theorem finished_runtime_script_provides_headers
    (T : tools) (ROOT ostype machine : string) (f : filesys)
    (budget : option nat) (u : unit) :
  let r := build_cpython T ROOT ostype machine (boot f budget) in
  r.1 = Ret u → is_dir (fs r.2) (HEADERS_OUT ROOT) = true.
Proof.
  intros r. subst r. unfold build_cpython.
  generalize (boot f budget). intros s.
  apply (bind_ret_post _ _ s u (λ s', is_dir (fs s') _ = true)).
  clear s. intros P s.
  apply (bind_ret_post _ _ s u (λ s', is_dir (fs s') _ = true)).
  clear s. intros rt s.
  unfold cross_build_runtime. rewrite test_bind.
  destruct (is_dir (fs s) (HEADERS_OUT ROOT)) eqn:Hd; cbn [negb].
  - done.
  - apply (bind_ret_post _ _ s u (λ s', is_dir (fs s') _ = true)).
    clear s Hd. intros _ s.
    apply (bind_ret_post _ _ s u (λ s', is_dir (fs s') _ = true)).
    clear s. intros _ s.
    apply configure_and_copy_headers_ret.
Qed.

Lemma finished_runtime_script_provides_headers_witness :
  let r := build_cpython Toy.world Toy.ROOT "linux-gnu" "x86_64"
             (boot toy_runtime_unpacked None) in
  is_dir toy_runtime_unpacked (HEADERS_OUT Toy.ROOT) = false
  ∧ r.1 = Ret ()
  ∧ is_dir (fs r.2) (HEADERS_OUT Toy.ROOT) = true.
Proof.
  intros r. subst r.
  exact (conj eq_refl
           (conj eq_refl
              (finished_runtime_script_provides_headers Toy.world Toy.ROOT
                 "linux-gnu" "x86_64" toy_runtime_unpacked None ()
                 eq_refl))).
Defined.
